(** * openevolve-multi-agent: the two-agent QA pipeline and its evaluator

    A shallow embedding of [best_program.py] (the candidate program:
    [_call_llm], [run_multi_agent], [EVAL_SET], [_normalize], [_is_correct],
    [run_benchmark]) and of [multi_agent_evaluator.py] ([_load_program],
    [evaluate]), with the properties the specification states about them.

    Conventions.
    - A Python [str] is a list of characters.  What CPython knows about a
      character ([str.isalnum], [str.isspace], [str.lower]) and about
      numeric text ([int(str)], [float(str)]) is not code of this
      repository; it is the interface [PyText], of which two instances are
      given: Latin-1 on [ascii], and Latin-1 extended with U+0130 and U+0307.
    - A Python [float] is a primitive binary64 float, an [int] is a [Z].
    - A [dict] with string keys is a [gmap string _].
    - Code that raises returns [Raise e]; code that talks to the model
      provider, prints or imports threads a [Sys] state. *)

From Stdlib Require Import ZArith List Ascii String Floats Lia.
From stdpp Require Import base option list gmap strings pretty.

Set Default Proof Using "Type".
Local Open Scope Z_scope.

(** ** Python text *)

(** The per-character built-ins of [str] and the numeric parsers. *)
Class PyText (char : Type) := {
  char_eq_dec :: EqDecision char;
  (** the character an ASCII source-code literal denotes *)
  of_ascii : ascii -> char;
  (** [ch.isalnum()], [ch.isspace()] on a one-character string *)
  isalnum : char -> bool;
  isspace : char -> bool;
  (** [ch.lower()]: a string, since one character can lower-case to several *)
  lower : char -> list char;
  (** [int(s)] and [float(s)] on a [str]; [None] is [ValueError] *)
  str_to_int : list char -> option Z;
  str_to_float : list char -> option float;
}.

(** A string literal of the source. *)
Definition lit {char} `{PyText char} (s : string) : list char :=
  map of_ascii (list_ascii_of_string s).

Section Normalizer.
Context {char : Type} {T : PyText char}.

Implicit Types (text answer s : list char) (ch : char).

(** The filter of the generator expression in [_normalize]. *)
Definition kept ch : bool := isalnum ch || isspace ch.

(** [def _normalize(text)]:
    ["".join(ch.lower() for ch in text if ch.isalnum() or ch.isspace())] *)
Definition _normalize text : list char :=
  concat (map lower (List.filter kept text)).

(** [needle in hay] on [str]: some suffix of [hay] starts with [needle]. *)
Fixpoint str_contains (needle hay : list char) : bool :=
  bool_decide (needle `prefix_of` hay) ||
  match hay with
  | [] => false
  | _ :: hay' => str_contains needle hay'
  end.

(** [def _is_correct(answer, expected_substring)] *)
Definition _is_correct answer (expected_substring : list char) : bool :=
  let norm_ans := _normalize answer in
  let norm_exp := _normalize expected_substring in
  str_contains norm_exp norm_ans.

(** [s.strip()]: whitespace removed at both ends. *)
Fixpoint lstrip s : list char :=
  match s with
  | [] => []
  | ch :: s' => if isspace ch then lstrip s' else s
  end.

Definition strip s : list char := rev (lstrip (rev (lstrip s))).
End Normalizer.

(** *** Latin-1: the code points U+0000..U+00FF, on [ascii] *)

Definition code (c : ascii) : Z := Z.of_N (N_of_ascii c).

Definition between (lo hi n : Z) : bool := (lo <=? n) && (n <=? hi).

Definition latin1_isalnum (c : ascii) : bool :=
  let n := code c in
  between 48 57 n || between 65 90 n || between 97 122 n ||
  (n =? 170) || between 178 179 n || (n =? 181) || between 185 186 n ||
  between 188 190 n || between 192 214 n || between 216 246 n ||
  between 248 255 n.

Definition latin1_isspace (c : ascii) : bool :=
  let n := code c in
  between 9 13 n || between 28 32 n || (n =? 133) || (n =? 160).

Definition latin1_lower (c : ascii) : ascii :=
  let n := code c in
  if between 65 90 n || between 192 214 n || between 216 222 n
  then ascii_of_N (Z.to_N (n + 32)) else c.

(** *** Numbers and numeric text, as CPython 3.11 reads them *)

(** [float(n)] for an [int]: the nearest binary64, ties to even;
    [infinity] stands for an overflow here and is turned into
    [OverflowError] by the caller. *)
Definition float_of_Z (n : Z) : float :=
  SF2Prim (binary_normalize prec emax n 0 false).

(** [a / b] on two [int]s, [b <> 0]: the correctly rounded quotient. *)
Definition sf_of_Z (n : Z) : spec_float :=
  match n with
  | Z0 => S754_zero false
  | Zpos p => S754_finite false p 0
  | Zneg p => S754_finite true p 0
  end.

Definition truediv_Z (a b : Z) : float :=
  SF2Prim (SFdiv prec emax (sf_of_Z a) (sf_of_Z b)).

(** [int(x)] for a finite [float]: truncation towards zero. *)
Definition trunc_float (f : float) : option Z :=
  match Prim2SF f with
  | S754_zero _ => Some 0
  | S754_finite s m e =>
      let a := if 0 <=? e then Z.shiftl (Zpos m) e else Z.shiftr (Zpos m) (- e) in
      Some (if s then - a else a)
  | S754_infinity _ | S754_nan => None
  end.

(** The decimal value [sign * m * 10^e] as the nearest binary64. *)
Definition float_of_decimal (neg : bool) (m e : Z) : float :=
  if m =? 0 then (if neg then (-0)%float else 0%float)
  else if 0 <=? e
  then SF2Prim (binary_normalize prec emax ((if neg then -1 else 1) * m * 10 ^ e) 0 neg)
  else SF2Prim (SFdiv prec emax (sf_of_Z (if neg then - m else m)) (sf_of_Z (10 ^ (- e)))).

Module Latin1Num.
(** [_PyUnicode_TransformDecimalAndSpaceToASCII]: below 127 unchanged,
    other white space becomes a blank, anything else a question mark
    (Latin-1 has no decimal digit outside ASCII). *)
Definition to_c (c : ascii) : Z :=
  let n := code c in
  if n <? 127 then n else if latin1_isspace c then 32 else 63.

(** [Py_ISSPACE] and [Py_ISDIGIT] of the C layer. *)
Definition c_isspace (n : Z) : bool := between 9 13 n || (n =? 32).
Definition c_isdigit (n : Z) : bool := between 48 57 n.

Fixpoint skip_space (s : list Z) : list Z :=
  match s with
  | c :: s' => if c_isspace c then skip_space s' else s
  | [] => []
  end.

(** An optional sign: [true] for a minus. *)
Definition take_sign (s : list Z) : bool * list Z :=
  match s with
  | 43 :: r => (false, r)
  | 45 :: r => (true, r)
  | _ => (false, s)
  end.

(** Digits after a first digit, a single underscore allowed between two
    digits: the value, the number of digits and what follows. *)
Fixpoint more_digits (acc : Z) (cnt : nat) (s : list Z) : option (Z * nat * list Z) :=
  match s with
  | [] => Some (acc, cnt, [])
  | c :: r =>
      if c_isdigit c then more_digits (acc * 10 + (c - 48)) (S cnt) r
      else if c =? 95 then
        match r with
        | d :: r' =>
            if c_isdigit d then more_digits (acc * 10 + (d - 48)) (S cnt) r'
            else None
        | [] => None
        end
      else Some (acc, cnt, s)
  end.

Definition some_digits (s : list Z) : option (Z * nat * list Z) :=
  match s with
  | c :: r => if c_isdigit c then more_digits (c - 48) 1 r else None
  | [] => None
  end.

(** [int(s)], base 10, with the default limit of 4300 digits. *)
Definition str_to_int (s : list ascii) : option Z :=
  let '(neg, t) := take_sign (skip_space (map to_c s)) in
  match some_digits t with
  | Some (v, cnt, rest) =>
      if forallb c_isspace rest && (cnt <=? 4300)%nat
      then Some (if neg then - v else v) else None
  | None => None
  end.

(** [_Py_string_to_number_with_underscores]: an underscore is dropped
    when it stands between two digits and refused anywhere else. *)
Fixpoint drop_underscores (prev : Z) (s : list Z) : option (list Z) :=
  match s with
  | [] => if prev =? 95 then None else Some []
  | c :: r =>
      if c =? 95 then
        if c_isdigit prev then drop_underscores c r else None
      else if (prev =? 95) && negb (c_isdigit c) then None
      else cons c <$> drop_underscores c r
  end.

(** Digits without underscores: the value, their number, the rest. *)
Fixpoint plain_digits (acc : Z) (cnt : Z) (s : list Z) : Z * Z * list Z :=
  match s with
  | c :: r => if c_isdigit c then plain_digits (acc * 10 + (c - 48)) (cnt + 1) r
              else (acc, cnt, s)
  | [] => (acc, cnt, [])
  end.

Definition c_lower (n : Z) : Z := if between 65 90 n then n + 32 else n.

Definition codes (s : string) : list Z := map code (list_ascii_of_string s).

(** The exponent part: consumed only when a digit follows. *)
Definition take_exponent (s : list Z) : Z * list Z :=
  match s with
  | c :: r =>
      if c_lower c =? 101 then
        let '(eneg, r1) := take_sign r in
        let '(e, n, r2) := plain_digits 0 0 r1 in
        if 0 <? n then (if eneg then - e else e, r2) else (0, s)
      else (0, s)
  | [] => (0, [])
  end.

(** [_PyOS_ascii_strtod] on text without surrounding white space. *)
Definition strtod (s : list Z) : option float :=
  let '(neg, t) := take_sign s in
  let name := map c_lower t in
  if bool_decide (name = codes "inf") || bool_decide (name = codes "infinity")
  then Some (if neg then neg_infinity else infinity)
  else if bool_decide (name = codes "nan") then Some nan
  else
    let '(ip, ni, t1) := plain_digits 0 0 t in
    let '(m, nf, t2) :=
      match t1 with
      | 46 :: r => let '(m, nf, r') := plain_digits ip 0 r in (m, nf, r')
      | _ => (ip, 0, t1)
      end in
    if 0 <? ni + nf then
      let '(e, t3) := take_exponent t2 in
      match t3 with
      | [] => Some (float_of_decimal neg m (e - nf))
      | _ :: _ => None
      end
    else None.

(** [float(s)]. *)
Definition str_to_float (s : list ascii) : option float :=
  t ← drop_underscores 0 (map to_c s);
  match rev (skip_space (rev (skip_space t))) with
  | [] => None
  | t' => strtod t'
  end.
End Latin1Num.

#[export] Instance latin1_text : PyText ascii := {|
  of_ascii c := c;
  isalnum := latin1_isalnum;
  isspace := latin1_isspace;
  lower c := [latin1_lower c];
  str_to_int := Latin1Num.str_to_int;
  str_to_float := Latin1Num.str_to_float;
|}.

(** *** Latin-1 with two more code points

    U+0130 (capital I with dot above) is a letter whose lower case is the
    two characters U+0069 U+0307; U+0307 (combining dot above) is a mark:
    neither alphanumeric nor white space, and unchanged by [lower]. *)
Inductive uchar :=
| Latin1 (c : ascii)
| CapitalIDotAbove
| CombiningDotAbove.

#[export] Instance uchar_eq_dec : EqDecision uchar.
Proof. solve_decision. Defined.

Definition as_latin1 (s : list uchar) : option (list ascii) :=
  mapM (fun u => match u with Latin1 c => Some c | _ => None end) s.

#[export] Instance uchar_text : PyText uchar := {|
  of_ascii := Latin1;
  isalnum u :=
    match u with
    | Latin1 c => latin1_isalnum c
    | CapitalIDotAbove => true
    | CombiningDotAbove => false
    end;
  isspace u := match u with Latin1 c => latin1_isspace c | _ => false end;
  lower u :=
    match u with
    | Latin1 c => [Latin1 (latin1_lower c)]
    | CapitalIDotAbove => [Latin1 "i"%char; CombiningDotAbove]
    | CombiningDotAbove => [CombiningDotAbove]
    end;
  str_to_int s := as_latin1 s ≫= Latin1Num.str_to_int;
  str_to_float s := as_latin1 s ≫= Latin1Num.str_to_float;
|}.

(** ** The text normalizer, as the specification words it *)

Section NormalizerSpec.
Context {char : Type} {T : PyText char}.

(** Keep a character when it is alphanumeric or white space, in its
    lower-cased form; drop any other character, leaving nothing in its
    place. *)
Fixpoint normalize_spec (text : list char) : list char :=
  match text with
  | [] => []
  | ch :: rest =>
      if isalnum ch then lower ch ++ normalize_spec rest
      else if isspace ch then lower ch ++ normalize_spec rest
      else normalize_spec rest
  end.

(** [sub] occurs in [s] as a contiguous block. *)
Definition contiguous_substring (sub s : list char) : Prop :=
  exists before after, s = before ++ sub ++ after.

(** Lower-casing maps [ch] to kept characters that are already lower
    case: what makes a second normalization change nothing. *)
Definition stable_char (ch : char) : bool :=
  forallb (fun d => kept d && bool_decide (lower d = [d])) (lower ch).

Definition stable_text (text : list char) : bool :=
  forallb (fun ch => implb (kept ch) (stable_char ch)) text.
End NormalizerSpec.

(** ** Python values and exceptions *)

Set Warnings "-register-all".

(** The values a configuration or a metrics dictionary holds. *)
Inductive pyval {char : Type} :=
| PyNone
| PyBool (b : bool)
| PyInt (n : Z)
| PyFloat (x : float)
| PyStr (s : list char)
| PyDict (d : gmap string pyval).
Arguments pyval : clear implicits.

(** Exceptions.  [ImportError] and [AttributeError] carry the message the
    source builds; the text of the errors the built-ins raise is left out;
    [OtherError] is whatever else a collaborator raises. *)
Inductive pyexc {char : Type} :=
| ImportError (msg : list char)
| AttributeError (msg : list char)
| KeyError (key : string)
| TypeError
| ValueError
| OverflowError
| ZeroDivisionError
| OtherError (class : string) (msg : list char).
Arguments pyexc : clear implicits.

Inductive result {char A : Type} :=
| Ok (a : A)
| Raise (e : pyexc char).
Arguments result : clear implicits.

Section Builtins.
Context {char : Type} {T : PyText char}.

Implicit Types (v : pyval char) (d : gmap string (pyval char)).

(** [bool(v)] *)
Definition py_truthy v : bool :=
  match v with
  | PyNone => false
  | PyBool b => b
  | PyInt n => negb (n =? 0)
  | PyFloat x => negb (x =? 0)%float
  | PyStr s => negb (bool_decide (s = []))
  | PyDict d => negb (bool_decide (d = ∅))
  end.

(** [type(v).__name__] *)
Definition py_type_name v : string :=
  match v with
  | PyNone => "NoneType"
  | PyBool _ => "bool"
  | PyInt _ => "int"
  | PyFloat _ => "float"
  | PyStr _ => "str"
  | PyDict _ => "dict"
  end.

(** [v[key]] for a string key *)
Definition py_getitem v (key : string) : result char (pyval char) :=
  match v with
  | PyDict d =>
      match d !! key with
      | Some x => Ok x
      | None => Raise (KeyError key)
      end
  | _ => Raise TypeError
  end.

(** [v.get(key, dflt)] *)
Definition py_get v (key : string) (dflt : pyval char)
  : result char (pyval char) :=
  match v with
  | PyDict d => Ok (default dflt (d !! key))
  | _ => Raise (AttributeError
                  (lit ("'" +:+ py_type_name v +:+ "' object has no attribute 'get'")))
  end.

(** [int(v)] *)
Definition py_int v : result char Z :=
  match v with
  | PyInt n => Ok n
  | PyBool b => Ok (if b then 1 else 0)
  | PyFloat x =>
      match trunc_float x with
      | Some n => Ok n
      | None => Raise (if is_nan x then ValueError else OverflowError)
      end
  | PyStr s =>
      match str_to_int s with
      | Some n => Ok n
      | None => Raise ValueError
      end
  | PyNone | PyDict _ => Raise TypeError
  end.

(** [float(n)] for an [int] *)
Definition float_of_int (n : Z) : result char float :=
  let x := float_of_Z n in
  if is_infinity x then Raise OverflowError else Ok x.

(** [float(v)] *)
Definition py_float v : result char float :=
  match v with
  | PyFloat x => Ok x
  | PyInt n => float_of_int n
  | PyBool b => Ok (if b then 1%float else 0%float)
  | PyStr s =>
      match str_to_float s with
      | Some x => Ok x
      | None => Raise ValueError
      end
  | PyNone | PyDict _ => Raise TypeError
  end.

(** [a / b] on two [int]s *)
Definition int_truediv (a b : Z) : result char float :=
  if b =? 0 then Raise ZeroDivisionError
  else
    let x := truediv_Z a b in
    if is_infinity x then Raise OverflowError else Ok x.

(** [isinstance(v, (bool, int, float))]: the numeric values *)
Definition is_numeric v : bool :=
  match v with
  | PyBool _ | PyInt _ | PyFloat _ => true
  | _ => false
  end.
End Builtins.

(** ** The outside world *)

(** One request to the chat-completion endpoint: the model name, the
    contents of the system and of the user message, and [max_tokens]. *)
Record Call (char : Type) := MkCall {
  call_model : list char;
  call_system : pyval char;
  call_user : list char;
  call_max_tokens : Z;
}.
Arguments MkCall {char}.
Arguments call_model {char}.
Arguments call_system {char}.
Arguments call_user {char}.
Arguments call_max_tokens {char}.

(** What a run can observe and change: the state of the world outside
    the process, the requests sent to the provider so far (oldest first),
    and the lines printed so far. *)
Record Sys (char World : Type) := MkSys {
  world : World;
  llm_calls : list (Call char);
  stdout : list (list char);
}.
Arguments MkSys {char World}.
Arguments world {char World}.
Arguments llm_calls {char World}.
Arguments stdout {char World}.

(** A computation that may raise and may change the system state. *)
Definition M (char World A : Type) : Type :=
  Sys char World -> result char A * Sys char World.

Section Monad.
Context {char World : Type}.

Definition ret {A} (a : A) : M char World A := fun st => (Ok a, st).

Definition raise {A} (e : pyexc char) : M char World A :=
  fun st => (Raise e, st).

Definition bind {A B} (m : M char World A) (k : A -> M char World B)
  : M char World B :=
  fun st =>
    match m st with
    | (Ok a, st') => k a st'
    | (Raise e, st') => (Raise e, st')
    end.

(** A pure step that may raise. *)
Definition try {A} (r : result char A) : M char World A := fun st => (r, st).

(** [print(line)] *)
Definition print (line : list char) : M char World unit :=
  fun st => (Ok tt, MkSys (world st) (llm_calls st) (stdout st ++ [line])).
End Monad.

#[export] Instance M_ret {char World} : MRet (M char World) :=
  fun A => ret.
#[export] Instance M_bind {char World} : MBind (M char World) :=
  fun A B k m => bind m k.
#[export] Instance M_fmap {char World} : FMap (M char World) :=
  fun A B f m => bind m (fun a => ret (f a)).

(** An attribute of a loaded module: a plain value, or something that can
    be called without arguments. *)
Inductive attr {char World : Type} :=
| AttrValue (v : pyval char)
| AttrCallable (f : M char World (pyval char)).
Arguments attr : clear implicits.

(** A module object: its namespace. *)
Record Module (char World : Type) := MkModule {
  mod_attrs : gmap string (attr char World);
}.
Arguments MkModule {char World}.
Arguments mod_attrs {char World}.

(** The collaborators: the provider's client and [importlib.util]. *)
Class Host (char World : Type) := {
  (** [_client.chat.completions.create(...)], then
      [resp.choices[0].message.content]: a string or [None] *)
  chat_completions_create :
    Call char -> World -> result char (option (list char)) * World;
  (** the type of module specs *)
  ModuleSpec : Type;
  (** [importlib.util.spec_from_file_location(name, path)] *)
  spec_from_file_location :
    list char -> list char -> M char World (option ModuleSpec);
  (** [spec.loader is not None] *)
  spec_has_loader : ModuleSpec -> bool;
  (** [importlib.util.module_from_spec(spec)] *)
  module_from_spec : ModuleSpec -> M char World (Module char World);
  (** [spec.loader.exec_module(module)]: runs the file's top level, which
      fills the module's namespace *)
  exec_module :
    ModuleSpec -> Module char World -> M char World (Module char World);
}.

(** ** best_program.py *)

(** One entry of the evaluation set. *)
Record EvalExample (char : Type) := MkExample {
  question : list char;
  expected_substring : list char;
}.
Arguments MkExample {char}.
Arguments question {char}.
Arguments expected_substring {char}.

Section Program.
Context {char World : Type} {T : PyText char} {host : Host char World}.

(** [def _call_llm(system_prompt, user_content, max_tokens=128)] *)
Definition _call_llm (system_prompt : pyval char) (user_content : list char)
    (max_tokens : Z) : M char World (list char) :=
  fun st =>
    let model := lit "gpt-4o-mini" in
    let call := MkCall model system_prompt user_content max_tokens in
    let '(resp, w) := chat_completions_create call (world st) in
    let st' := MkSys w (llm_calls st ++ [call]) (stdout st) in
    match resp with
    | Ok content => (Ok (strip (default [] content)), st')
    | Raise e => (Raise e, st')
    end.

(** The module globals: the configuration a candidate rewrites, and the
    evaluation set. *)
Variable AGENT_CONFIG : gmap string (pyval char).
Variable EVAL_SET : list (EvalExample char).

(** [def run_multi_agent(question, config=None)] *)
Definition run_multi_agent (question : list char)
    (config : option (gmap string (pyval char))) : M char World (list char) :=
  let config := default AGENT_CONFIG config in
  (* Optional planner step. *)
  plan_text ←
    (if py_truthy (default (PyBool false) (config !! "use_planner")) then
       planner_cfg ← try (py_getitem (PyDict config) "planner");
       system_prompt ← try (py_getitem planner_cfg "system_prompt");
       max_tokens ← try (py_get planner_cfg "max_tokens" (PyInt 128));
       max_tokens ← try (py_int max_tokens);
       _call_llm system_prompt (lit "Question: " ++ question) max_tokens
     else mret []);
  (* Solver step. *)
  solver_cfg ← try (py_getitem (PyDict config) "solver");
  let solver_input := lit "Question: " ++ question in
  let solver_input :=
    if bool_decide (plan_text = []) then solver_input
    else solver_input ++ lit (String "010" "Plan: ") ++ plan_text in
  system_prompt ← try (py_getitem solver_cfg "system_prompt");
  max_tokens ← try (py_get solver_cfg "max_tokens" (PyInt 64));
  max_tokens ← try (py_int max_tokens);
  answer ← _call_llm system_prompt solver_input max_tokens;
  mret answer.

(** [str(n)] for an [int] *)
Definition py_str_of_int (n : Z) : list char := lit (pretty n).

(** The [for ex in EVAL_SET] loop of [run_benchmark], from the examples
    still to run and the value of [correct] so far. *)
Fixpoint benchmark_loop (verbose : bool) (todo : list (EvalExample char))
    (correct : Z) : M char World Z :=
  match todo with
  | [] => mret correct
  | ex :: todo' =>
      ans ← run_multi_agent (question ex) None;
      (if verbose then
         print (lit "Q: " ++ question ex);;
         print (lit "A: " ++ ans);;
         print []
       else mret tt);;
      let correct :=
        if _is_correct ans (expected_substring ex) then correct + 1 else correct in
      benchmark_loop verbose todo' correct
  end.

(** [def run_benchmark(verbose=False)] *)
Definition run_benchmark (verbose : bool) : M char World (gmap string (pyval char)) :=
  correct ← benchmark_loop verbose EVAL_SET 0;
  let len := Z.of_nat (length EVAL_SET) in
  success_rate ←
    match EVAL_SET with
    | [] => mret 0%float
    | _ :: _ => try (int_truediv correct len)
    end;
  (if verbose then
     print (lit "Correct answers: " ++ py_str_of_int correct ++ lit "/" ++
            py_str_of_int len)
   else mret tt);;
  success_rate ← try (py_float (PyFloat success_rate));
  num_examples ← try (py_float (PyInt len));
  mret ({[ "success_rate" := PyFloat success_rate;
           "num_examples" := PyFloat num_examples ]} : gmap string (pyval char)).
End Program.

(** The globals as [best_program.py] has them. *)
Section Globals.
Context {char : Type} {T : PyText char}.

Definition AGENT_CONFIG : gmap string (pyval char) :=
  {[ "use_planner" := PyBool true;
     "planner" := PyDict
       {[ "system_prompt" := PyStr (lit
            ("You are a planning assistant. Given a question, write 2-4 short " +:+
             "steps that would help answer the question. Keep steps concise."));
          "max_tokens" := PyInt 128 ]};
     "solver" := PyDict
       {[ "system_prompt" := PyStr (lit
            "You are an intelligent assistant. Use the plan provided to answer the question as accurately as possible.");
          "max_tokens" := PyInt 32 ]} ]}.

Definition EVAL_SET : list (EvalExample char) :=
  [ MkExample (lit "What is the capital of France?") (lit "paris");
    MkExample (lit "Who wrote the novel Pride and Prejudice?") (lit "jane austen");
    MkExample (lit "What is the chemical formula for water?") (lit "h2o");
    MkExample (lit "What is the capital of Italy?") (lit "rome");
    MkExample (lit "What is the largest ocean on Earth?") (lit "pacific");
    MkExample (lit "Who painted the Mona Lisa?") (lit "leonardo da vinci");
    MkExample (lit "What is the boiling point of water?") (lit "100") ].
End Globals.

(** ** multi_agent_evaluator.py *)

Section Evaluator.
Context {char World : Type} {T : PyText char} {host : Host char World}.

(** [def _load_program(path)] *)
Definition _load_program (path : list char) : M char World (Module char World) :=
  spec ← spec_from_file_location (lit "candidate_program") path;
  match spec with
  | Some spec =>
      if spec_has_loader spec then
        module ← module_from_spec spec;
        module ← exec_module spec module;
        mret module
      else raise (ImportError (lit "Could not load candidate program from " ++ path))
  | None => raise (ImportError (lit "Could not load candidate program from " ++ path))
  end.

(** The message of the error [evaluate] raises for a missing [run_benchmark]. *)
Definition no_run_benchmark : list char :=
  lit ("Candidate program does not define run_benchmark(). " +:+
       "Make sure multi_agent_program.py has run_benchmark().").

(** [attribute()] *)
Definition py_call (a : attr char World) : M char World (pyval char) :=
  match a with
  | AttrCallable f => f
  | AttrValue _ => raise TypeError
  end.

(** [def evaluate(program_path)] *)
Definition evaluate (program_path : list char) : M char World (gmap string float) :=
  module ← _load_program program_path;
  match mod_attrs module !! "run_benchmark" with
  | None => raise (AttributeError no_run_benchmark)
  | Some run_benchmark =>
      metrics ← py_call run_benchmark;
      success_rate ← try (py_get metrics "success_rate" (PyFloat 0));
      success_rate ← try (py_float success_rate);
      let combined_score := success_rate in  (* simple objective: just accuracy *)
      mret ({[ "score" := combined_score;
               "combined_score" := combined_score;
               "success_rate" := success_rate ]} : gmap string float)
  end.

(** The module object a candidate file yields once executed: the
    attribute the evaluator looks at, bound to the file's [run_benchmark]
    with its default argument. *)
Definition candidate_module (config : gmap string (pyval char))
    (eval_set : list (EvalExample char)) : Module char World :=
  MkModule {[ "run_benchmark" :=
                AttrCallable (PyDict <$> run_benchmark config eval_set false) ]}.
End Evaluator.

(** ** The pipeline, as the specification words it *)

(** The configuration schema of the specification. *)
Record StageConfig (char : Type) := MkStage {
  system_prompt : list char;
  max_tokens : Z;
}.
Arguments MkStage {char}.
Arguments system_prompt {char}.
Arguments max_tokens {char}.

Record AgentConfig (char : Type) := MkConfig {
  use_planner : bool;
  planner : StageConfig char;
  solver : StageConfig char;
}.
Arguments MkConfig {char}.
Arguments use_planner {char}.
Arguments planner {char}.
Arguments solver {char}.

Section PipelineSpec.
Context {char World : Type} {T : PyText char} {host : Host char World}.

(** The dictionary that carries a configuration. *)
Definition stage_dict (s : StageConfig char) : gmap string (pyval char) :=
  {[ "system_prompt" := PyStr (system_prompt s);
     "max_tokens" := PyInt (max_tokens s) ]}.

Definition config_dict (c : AgentConfig char) : gmap string (pyval char) :=
  {[ "use_planner" := PyBool (use_planner c);
     "planner" := PyDict (stage_dict (planner c));
     "solver" := PyDict (stage_dict (solver c)) ]}.

(** The Completion Stage with the prompt and budget of one stage. *)
Definition complete (s : StageConfig char) (user_content : list char)
  : M char World (list char) :=
  _call_llm (PyStr (system_prompt s)) user_content (max_tokens s).

(** Step 2: the solver input for a question and a captured plan. *)
Definition spec_solver_input (q plan : list char) : list char :=
  match plan with
  | [] => lit "Question: " ++ q
  | _ :: _ => (lit "Question: " ++ q) ++ lit (String "010" "Plan: ") ++ plan
  end.

(** Step 1: the captured plan, empty without a call when the planner is
    off. *)
Definition spec_plan (q : list char) (c : AgentConfig char) : M char World (list char) :=
  if use_planner c then complete (planner c) (lit "Question: " ++ q)
  else mret [].

(** Steps 1 to 3. *)
Definition spec_run (q : list char) (c : AgentConfig char) : M char World (list char) :=
  plan ← spec_plan q c;
  complete (solver c) (spec_solver_input q plan).

(** The one request of the solver stage, for a captured plan. *)
Definition solver_call (q : list char) (c : AgentConfig char) (plan : list char)
  : Call char :=
  MkCall (lit "gpt-4o-mini") (PyStr (system_prompt (solver c)))
    (spec_solver_input q plan) (max_tokens (solver c)).

(** What sending [call] in state [st] gives: the provider's text with the
    white space around it removed (the empty text for no content), or the
    provider's error; the request is recorded either way. *)
Definition send (call : Call char) (st : Sys char World)
  : result char (list char) * Sys char World :=
  let '(resp, w) := chat_completions_create call (world st) in
  (match resp with
   | Ok content => Ok (strip (default [] content))
   | Raise e => Raise e
   end,
   MkSys w (llm_calls st ++ [call]) (stdout st)).

(** [config.get("use_planner", False)] is false. *)
Definition planner_off (config : gmap string (pyval char)) : Prop :=
  py_truthy (default (PyBool false) (config !! "use_planner")) = false.

(** The pipeline for a planner and a solver prompt and the two budgets. *)
Definition two_stage (q : list char) (planner_prompt solver_prompt : pyval char)
    (planner_budget solver_budget : result char Z) : M char World (list char) :=
  n ← try planner_budget;
  plan ← _call_llm planner_prompt (lit "Question: " ++ q) n;
  m ← try solver_budget;
  _call_llm solver_prompt (spec_solver_input q plan) m.

(** The request the solver stage sends under a planner-less dictionary
    configuration, when the configuration can be read. *)
Definition solver_request (q : list char) (config : gmap string (pyval char))
  : result char (Call char) :=
  match py_getitem (PyDict config) "solver" with
  | Ok solver_cfg =>
      match py_getitem solver_cfg "system_prompt" with
      | Ok prompt =>
          match py_get solver_cfg "max_tokens" (PyInt 64) with
          | Ok budget =>
              match py_int budget with
              | Ok n => Ok (MkCall (lit "gpt-4o-mini") prompt (lit "Question: " ++ q) n)
              | Raise e => Raise e
              end
          | Raise e => Raise e
          end
      | Raise e => Raise e
      end
  | Raise e => Raise e
  end.

(** The token budget a stage dictionary asks for, [dflt] when it has no
    ["max_tokens"]. *)
Definition token_budget (stage : gmap string (pyval char)) (dflt : Z)
  : result char Z :=
  match stage !! "max_tokens" with
  | None => Ok dflt
  | Some v => py_int v
  end.
End PipelineSpec.

(** The three fields of a score report all hold [x]. *)
Definition report_all (report : gmap string float) (x : float) : Prop :=
  report !! "score" = Some x /\
  report !! "combined_score" = Some x /\
  report !! "success_rate" = Some x.

(** [a == b] on two floats as Python evaluates it: the IEEE comparison,
    false when either side is NaN. *)
Definition py_float_eq (a b : float) : bool := (a =? b)%float.

(** [score == combined_score == success_rate] is [True] on the report,
    and so is [success_rate == x]. *)
Definition report_py_equal (report : gmap string float) (x : float) : Prop :=
  exists score combined_score success_rate,
    report !! "score" = Some score /\
    report !! "combined_score" = Some combined_score /\
    report !! "success_rate" = Some success_rate /\
    py_float_eq score combined_score = true /\
    py_float_eq combined_score success_rate = true /\
    py_float_eq success_rate x = true.

(** ** A scripted host, for running the code on examples

    The provider answers every request through [reply]; a location is
    resolved when [files] knows it, and executing the file yields what
    [files] says.  The world has no state of its own. *)
Section Scripted.
Context {char : Type} {T : PyText char}.
Variable reply : Call char -> result char (option (list char)).
Variable files : list char -> option (result char (Module char unit)).

Definition scripted_host : Host char unit := {|
  chat_completions_create call w := (reply call, w);
  ModuleSpec := list char;
  spec_from_file_location _ path :=
    mret (match files path with Some _ => Some path | None => None end);
  spec_has_loader _ := true;
  module_from_spec _ := mret (MkModule ∅);
  exec_module path _ :=
    match files path with
    | Some r => try r
    | None => raise (OtherError "FileNotFoundError" path)
    end;
|}.
End Scripted.

(** The state before anything has happened. *)
Definition fresh {char} : Sys char unit := MkSys tt [] [].

(** ** The benchmark, as the specification words it *)

Section BenchmarkSpec.
Context {char World : Type} {T : PyText char} {host : Host char World}.

(** The answers of the pipeline to the examples, in order (with what a
    verbose pass prints on the way). *)
Fixpoint answer_all (config : gmap string (pyval char)) (verbose : bool)
    (todo : list (EvalExample char)) : M char World (list (list char)) :=
  match todo with
  | [] => mret []
  | ex :: todo' =>
      ans ← run_multi_agent config (question ex) None;
      (if verbose then
         print (lit "Q: " ++ question ex);;
         print (lit "A: " ++ ans);;
         print []
       else mret tt);;
      rest ← answer_all config verbose todo';
      mret (ans :: rest)
  end.

(** The number of examples whose answer matches the expected substring. *)
Fixpoint correct_count (answers : list (list char))
    (examples : list (EvalExample char)) : Z :=
  match answers, examples with
  | ans :: answers', ex :: examples' =>
      (if _is_correct ans (expected_substring ex) then 1 else 0)
      + correct_count answers' examples'
  | _, _ => 0
  end.

(** The provider answers every request. *)
Definition provider_answers : Prop :=
  forall (call : Call char) (w : World),
    exists content w', chat_completions_create call w = (Ok content, w').
End BenchmarkSpec.

(** ** Example data *)

(** The configuration of [best_program.py], in the schema. *)
Definition reference_config {char} `{PyText char} : AgentConfig char :=
  MkConfig true
    (MkStage (lit
       ("You are a planning assistant. Given a question, write 2-4 short " +:+
        "steps that would help answer the question. Keep steps concise.")) 128)
    (MkStage (lit
       "You are an intelligent assistant. Use the plan provided to answer the question as accurately as possible.") 32).

(** A configuration dictionary whose two stages leave out ["max_tokens"]. *)
Definition config_without_budgets : gmap string (pyval ascii) :=
  {[ "use_planner" := PyBool true;
     "planner" := PyDict {[ "system_prompt" := PyStr (lit "Plan.") ]};
     "solver" := PyDict {[ "system_prompt" := PyStr (lit "Answer.") ]} ]}.

(** A configuration of the schema with the planner off. *)
Definition solver_only_config : AgentConfig ascii :=
  MkConfig false (MkStage (lit "Plan.") 16) (MkStage (lit "Answer.") 8).

(** A provider that answers " Paris " to every request. *)
Definition paris_reply (call : Call ascii) : result ascii (option (list ascii)) :=
  Ok (Some (lit " Paris ")).

(** A module whose [run_benchmark()] returns [metrics] at once. *)
Definition module_returning (metrics : pyval ascii) : Module ascii unit :=
  MkModule {[ "run_benchmark" := AttrCallable (mret metrics) ]}.

(** A few candidate files. *)
Definition demo_files (path : list ascii) : option (result ascii (Module ascii unit)) :=
  if bool_decide (path = lit "half.py") then
    Some (Ok (module_returning (PyDict {[ "success_rate" := PyFloat 0.5 ]})))
  else if bool_decide (path = lit "huge.py") then
    Some (Ok (module_returning (PyDict {[ "success_rate" := PyInt (2 ^ 1024) ]})))
  else if bool_decide (path = lit "none.py") then
    Some (Ok (module_returning (PyDict {[ "success_rate" := PyNone ]})))
  else if bool_decide (path = lit "empty.py") then
    Some (Ok (module_returning (PyDict ∅)))
  else if bool_decide (path = lit "no_benchmark.py") then
    Some (Ok (MkModule ∅))
  else if bool_decide (path = lit "broken.py") then
    Some (Raise (OtherError "SyntaxError" (lit "invalid syntax")))
  else if bool_decide (path = lit "best_program.py") then
    Some (Ok (candidate_module (host := scripted_host paris_reply (fun _ => None))
                AGENT_CONFIG EVAL_SET))
  else None.

Definition demo_host : Host ascii unit := scripted_host paris_reply demo_files.

(** What the benchmark of the file returns when every answer is "Paris":
    one example out of seven matches. *)
Definition paris_metrics : gmap string (pyval ascii) :=
  {[ "success_rate" := PyFloat (truediv_Z 1 7); "num_examples" := PyFloat 7 ]}.

(** ** Reading aids for the further properties *)

Section StageSpec.
Context {char World : Type} {T : PyText char} {host : Host char World}.

(** The request a stage sends once its entry of the configuration has
    been read: the entry, its prompt, its budget ([dflt] when absent)
    through [int()], in the order the source reads them. *)
Definition stage_request (config : gmap string (pyval char)) (stage : string)
    (dflt : Z) (user_content : list char) : result char (Call char) :=
  match py_getitem (PyDict config) stage with
  | Ok stage_cfg =>
      match py_getitem stage_cfg "system_prompt" with
      | Ok prompt =>
          match py_get stage_cfg "max_tokens" (PyInt dflt) with
          | Ok budget =>
              match py_int budget with
              | Ok n => Ok (MkCall (lit "gpt-4o-mini") prompt user_content n)
              | Raise e => Raise e
              end
          | Raise e => Raise e
          end
      | Raise e => Raise e
      end
  | Raise e => Raise e
  end.

(** [config.get("use_planner", False)] is true. *)
Definition planner_on (config : gmap string (pyval char)) : Prop :=
  py_truthy (default (PyBool false) (config !! "use_planner")) = true.

(** Only white space, or nothing at all. *)
Definition blank (s : list char) : bool := forallb isspace s.

(** The same state with other printed lines. *)
Definition with_stdout (st : Sys char World) (out : list (list char))
  : Sys char World :=
  MkSys (world st) (llm_calls st) out.

(** What a verbose pass prints for the examples and their answers: the
    question, the answer and an empty line, for each in turn. *)
Fixpoint transcript (examples : list (EvalExample char))
    (answers : list (list char)) : list (list char) :=
  match examples, answers with
  | ex :: examples', ans :: answers' =>
      [lit "Q: " ++ question ex; lit "A: " ++ ans; []]
      ++ transcript examples' answers'
  | _, _ => []
  end.

(** The last line of a verbose pass. *)
Definition tally_line (correct total : Z) : list char :=
  lit "Correct answers: " ++ py_str_of_int correct ++ lit "/" ++ py_str_of_int total.
End StageSpec.

(** ** The top of best_program.py *)

Section Startup.
Context {char World : Type} {T : PyText char} {host : Host char World}.

(** The message of the error raised without an API key. *)
Definition missing_key_message : list char :=
  lit ("OPENAI_API_KEY not found." +:+
       String "010" ("Create a .env file in this folder with a line like:" +:+
       String "010" "  OPENAI_API_KEY=sk-your-real-key-here")).

(** [_api_key = os.environ.get("OPENAI_API_KEY")] and the test that
    follows, on the environment [load_dotenv()] leaves: the key, or the
    [RuntimeError]. *)
Definition _api_key (environ : gmap string (list char)) : result char (list char) :=
  match environ !! "OPENAI_API_KEY" with
  | Some key =>
      if bool_decide (key = [])
      then Raise (OtherError "RuntimeError" missing_key_message)
      else Ok key
  | None => Raise (OtherError "RuntimeError" missing_key_message)
  end.

(** Executing the file: the key test, then the definitions; the client
    built from the key is the provider of the host. *)
Definition exec_best_program (environ : gmap string (list char))
  : M char World (Module char World) :=
  _ ← try (_api_key environ);
  mret (candidate_module AGENT_CONFIG EVAL_SET).
End Startup.

(** ** run_evolve.py *)

(** [LLMModelConfig(name=..., api_key=...)] *)
Record LLMModelConfig (char : Type) := MkModel {
  model_name : list char;
  model_api_key : list char;
}.
Arguments MkModel {char}.
Arguments model_name {char}.
Arguments model_api_key {char}.

(** The settings of an OpenEvolve [Config] that [main] assigns; [Rest] is
    everything else [Config()] holds. *)
Record EvolveConfig (char Rest : Type) := MkEvolveConfig {
  llm_models : list (LLMModelConfig char);
  max_iterations : Z;
  cascade_evaluation : bool;
  other_settings : Rest;
}.
Arguments MkEvolveConfig {char Rest}.
Arguments llm_models {char Rest}.
Arguments max_iterations {char Rest}.
Arguments cascade_evaluation {char Rest}.
Arguments other_settings {char Rest}.

(** What [main] uses from outside: OpenEvolve, the file system, [str()]. *)
Class Driver (char World : Type) := {
  ConfigRest : Type;
  (** [Config()] *)
  new_config : EvolveConfig char ConfigRest;
  (** [run_evolution(initial_program, evaluator, config=config)]: the
      attributes of the result object *)
  run_evolution :
    list char -> list char -> EvolveConfig char ConfigRest ->
    M char World (gmap string (pyval char));
  (** [str(Path(__file__).resolve().parent / "best_program.py")] *)
  best_path : list char;
  (** [best_path.write_text(code, encoding="utf-8")] *)
  write_text : list char -> list char -> M char World unit;
  (** [str(v)], as [print] shows a value *)
  py_str : pyval char -> list char;
}.

Section RunEvolve.
Context {char World : Type} {T : PyText char} {driver : Driver char World}.

(** The note printed when there is no code to save. *)
Definition no_best_code_note : list char :=
  lit ("Note: could not find result.best_code on the result object." +:+
       String "010" ("OpenEvolve already saved best_program.py under its output directory" +:+
       String "010" ("the temp path printed in the logs. If you want, you can copy that" +:+
       String "010" "file into this repo manually."))).

(** [def main()] *)
Definition main (environ : gmap string (list char)) : M char World unit :=
  (* 1. Get API key *)
  let api_key := environ !! "OPENAI_API_KEY" in
  match api_key with
  | None => raise (OtherError "RuntimeError"
                     (lit "OPENAI_API_KEY not found in environment variables."))
  | Some api_key =>
      if bool_decide (api_key = []) then
        raise (OtherError "RuntimeError"
                 (lit "OPENAI_API_KEY not found in environment variables."))
      else
        (* 2. Set up OpenEvolve config *)
        let config := new_config in
        let config :=
          MkEvolveConfig [MkModel (lit "gpt-4o-mini") api_key]
            (max_iterations config) (cascade_evaluation config) (other_settings config) in
        let config :=
          MkEvolveConfig (llm_models config) 8
            (cascade_evaluation config) (other_settings config) in
        let config :=
          MkEvolveConfig (llm_models config) (max_iterations config)
            false (other_settings config) in
        (* 3. Run evolution *)
        result ← run_evolution (lit "multi_agent_program.py")
                   (lit "multi_agent_evaluator.py") config;
        print (lit (String "010" "Evolution finished."));;
        print (lit "Best score found: " ++
               py_str (default PyNone (result !! "best_score")));;
        (* 4. Save the best program *)
        let best_code := default PyNone (result !! "best_code") in
        match best_code with
        | PyStr code =>
            if bool_decide (strip code = []) then print no_best_code_note
            else
              write_text best_path code;;
              print (lit "Saved best program code to " ++ best_path)
        | _ => print no_best_code_note
        end
  end.

(** The configuration [main] hands to OpenEvolve for an API key. *)
Definition evolve_config (api_key : list char) : EvolveConfig char ConfigRest :=
  MkEvolveConfig [MkModel (lit "gpt-4o-mini") api_key] 8 false
    (other_settings new_config).

(** The two lines printed once the evolution has returned. *)
Definition finished_lines (result : gmap string (pyval char)) : list (list char) :=
  [ lit (String "010" "Evolution finished.");
    lit "Best score found: " ++ py_str (default PyNone (result !! "best_score")) ].
End RunEvolve.

(** ** More example data *)

(** A provider that is down, and one that answers with white space. *)
Definition failing_reply (call : Call ascii) : result ascii (option (list ascii)) :=
  Raise (OtherError "APIConnectionError" (lit "Connection error.")).

Definition blank_reply (call : Call ascii) : result ascii (option (list ascii)) :=
  Ok (Some (lit "  ")).

Definition failing_host : Host ascii unit := scripted_host failing_reply (fun _ => None).
Definition blank_host : Host ascii unit := scripted_host blank_reply (fun _ => None).

(** A provider that answers with the system prompt it is given. *)
Definition echo_reply (call : Call ascii) : result ascii (option (list ascii)) :=
  Ok (match call_system call with
      | PyStr prompt => Some prompt
      | _ => None
      end).

Definition echo_host : Host ascii unit := scripted_host echo_reply (fun _ => None).

(** A planner-less configuration whose solver prompt is [prompt]. *)
Definition solver_says (prompt : string) : gmap string (pyval ascii) :=
  {[ "use_planner" := PyBool false;
     "solver" := PyDict {[ "system_prompt" := PyStr (lit prompt) ]} ]}.

(** Candidate files that break the contract, and the file itself when
    the provider is down. *)
Definition odd_files (path : list ascii) : option (result ascii (Module ascii unit)) :=
  if bool_decide (path = lit "not_callable.py") then
    Some (Ok (MkModule {[ "run_benchmark" := AttrValue (PyInt 3) ]}))
  else if bool_decide (path = lit "returns_none.py") then
    Some (Ok (module_returning PyNone))
  else if bool_decide (path = lit "best_program.py") then
    Some (Ok (candidate_module (host := failing_host) AGENT_CONFIG EVAL_SET))
  else None.

Definition odd_host : Host ascii unit := scripted_host failing_reply odd_files.

(** Two candidate files: one whose top level raises an [AttributeError]
    when executed, one that runs without defining anything. *)
Definition look_alike_files (path : list ascii)
  : option (result ascii (Module ascii unit)) :=
  if bool_decide (path = lit "raises_at_top_level.py") then
    Some (Raise (AttributeError no_run_benchmark))
  else if bool_decide (path = lit "defines_nothing.py") then
    Some (Ok (MkModule ∅))
  else None.

Definition look_alike_host : Host ascii unit :=
  scripted_host paris_reply look_alike_files.

(** A provider that answers the first [n] requests and is down after;
    the world counts the requests. *)
Definition flaky_host (n : nat) : Host ascii nat := {|
  chat_completions_create call w :=
    (if (w <? n)%nat then Ok (Some (lit "Paris"))
     else Raise (OtherError "APIConnectionError" (lit "Connection error.")),
     S w);
  ModuleSpec := unit;
  spec_from_file_location _ _ := mret None;
  spec_has_loader _ := true;
  module_from_spec _ := mret (MkModule ∅);
  exec_module _ module := mret module;
|}.

(** A host whose one file is [best_program.py], executed in [environ]. *)
Definition file_host (environ : gmap string (list ascii)) : Host ascii unit := {|
  chat_completions_create call w := (paris_reply call, w);
  ModuleSpec := unit;
  spec_from_file_location _ path :=
    mret (if bool_decide (path = lit "best_program.py") then Some tt else None);
  spec_has_loader _ := true;
  module_from_spec _ := mret (MkModule ∅);
  exec_module _ _ :=
    exec_best_program (host := scripted_host paris_reply (fun _ => None)) environ;
|}.

(** How the scripted driver shows the values its results hold: [None],
    booleans, integers and text as Python shows them; floats and
    dictionaries do not occur in the scripts. *)
Definition shown (v : pyval ascii) : list ascii :=
  match v with
  | PyNone => lit "None"
  | PyBool true => lit "True"
  | PyBool false => lit "False"
  | PyInt n => lit (pretty n)
  | PyStr s => s
  | PyFloat _ => lit "<float>"
  | PyDict _ => lit "<dict>"
  end.

(** A driver whose evolution ends as [outcome] says; the world is the
    list of files written, oldest first. *)
Definition scripted_driver (outcome : result ascii (gmap string (pyval ascii)))
  : Driver ascii (list (list ascii * list ascii)) := {|
  ConfigRest := unit;
  new_config := MkEvolveConfig [] 100 true tt;
  run_evolution _ _ _ := try outcome;
  best_path := lit "/repo/best_program.py";
  write_text path content :=
    fun st => (Ok tt, MkSys (world st ++ [(path, content)]) (llm_calls st) (stdout st));
  py_str := shown;
|}.

Definition key_environ : gmap string (list ascii) :=
  {[ "OPENAI_API_KEY" := lit "sk-test" ]}.

(** * Properties *)

(** ** Text normalizer *)

Section NormalizerFacts.
Context {char : Type} {T : PyText char}.

Implicit Types (text s sub : list char) (ch : char).

Lemma normalize_nil : _normalize ([] : list char) = [].
Proof. reflexivity. Qed.

Lemma normalize_cons ch text :
  _normalize (ch :: text) = (if kept ch then lower ch else []) ++ _normalize text.
Proof.
  unfold _normalize. simpl. destruct (kept ch); reflexivity.
Qed.

Lemma normalize_app s text :
  _normalize (s ++ text) = _normalize s ++ _normalize text.
Proof.
  induction s as [|ch s IH]; [reflexivity|].
  rewrite <- app_comm_cons, !normalize_cons, IH. apply app_assoc.
Qed.

(** A string of kept characters that are their own lower case is left
    unchanged. *)
Lemma normalize_fixed s :
  forallb (fun d => kept d && bool_decide (lower d = [d])) s = true ->
  _normalize s = s.
Proof.
  induction s as [|d s IH]; [reflexivity|].
  simpl. intros [[Hk Hl]%andb_prop Hs]%andb_prop.
  apply bool_decide_eq_true in Hl.
  rewrite normalize_cons, Hk, Hl, IH by exact Hs. reflexivity.
Qed.

Lemma str_contains_true sub s :
  str_contains sub s = true <-> contiguous_substring sub s.
Proof.
  unfold contiguous_substring.
  induction s as [|c s IH]; simpl.
  - rewrite orb_false_r, bool_decide_eq_true. split.
    + intros [k Hk]. exists [], k. exact Hk.
    + intros (before & after & E). exists after.
      destruct before; [exact E|discriminate E].
  - rewrite orb_true_iff, bool_decide_eq_true, IH. split.
    + intros [[k Hk]|(before & after & E)].
      * exists [], k. exact Hk.
      * exists (c :: before), after. rewrite E. reflexivity.
    + intros (before & after & E). destruct before as [|b before].
      * left. exists after. exact E.
      * right. exists before, after. simpl in E. congruence.
Qed.
End NormalizerFacts.

(** Every Latin-1 character is stable. *)
Lemma latin1_stable (s : list ascii) : stable_text s = true.
Proof.
  induction s as [|c s IH]; [reflexivity|].
  simpl. rewrite IH, andb_true_r.
  destruct c as [[] [] [] [] [] [] [] []]; vm_compute; reflexivity.
Qed.

Lemma latin1_lower_fixed (c : ascii) :
  kept c = true -> _normalize (lower c) = lower c.
Proof.
  intros Hc. apply normalize_fixed.
  pose proof (latin1_stable [c]) as Hs. cbn in Hs. rewrite Hc in Hs.
  rewrite andb_true_r in Hs. exact Hs.
Qed.

Lemma latin1_normalize_idempotent (s : list ascii) :
  _normalize (_normalize s) = _normalize s.
Proof.
  induction s as [|c s IH]; [reflexivity|].
  rewrite normalize_cons, normalize_app, IH. f_equal.
  destruct (kept c) eqn:Hc; [|reflexivity].
  apply latin1_lower_fixed, Hc.
Qed.

(** C5. [_is_correct answer expected] holds exactly when the normalized
    expected text occurs as a contiguous block in the normalized answer;
    it accepts "Paris is the capital of France." for "paris" and refuses
    "Rome". *)
Theorem is_correct_iff_substring :
  (forall (char : Type) (T : PyText char) (answer expected : list char),
     _is_correct answer expected = true <->
     contiguous_substring (_normalize expected) (_normalize answer)) /\
  _is_correct (lit "Paris is the capital of France." : list ascii) (lit "paris") = true /\
  _is_correct (lit "Rome" : list ascii) (lit "paris") = false.
Proof.
  split; [|split; vm_compute; reflexivity].
  intros char T answer expected. unfold _is_correct. apply str_contains_true.
Qed.

(** C6. [_normalize] keeps the alphanumeric and the white-space characters,
    lower-cased and in order, and drops every other character without
    putting anything in its place; so "PARIS!" and "paris" normalize to the
    same text. *)
Theorem normalize_keeps_alnum_and_space :
  (forall (char : Type) (T : PyText char) (text : list char),
     _normalize text = normalize_spec text) /\
  (forall (char : Type) (T : PyText char) (s s' : list char) (ch : char),
     isalnum ch = false -> isspace ch = false ->
     _normalize (s ++ ch :: s') = _normalize s ++ _normalize s') /\
  _normalize (lit "PARIS!" : list ascii) = _normalize (lit "paris").
Proof.
  split; [|split; [|vm_compute; reflexivity]].
  - intros char T text. induction text as [|ch text IH]; [reflexivity|].
    rewrite normalize_cons, IH. simpl. unfold kept.
    destruct (isalnum ch), (isspace ch); reflexivity.
  - intros char T s s' ch Halnum Hspace.
    rewrite normalize_app, normalize_cons. unfold kept.
    rewrite Halnum, Hspace. reflexivity.
Qed.

Lemma normalize_keeps_alnum_and_space_witness :
  isalnum "!"%char = false /\ isspace "!"%char = false /\
  _normalize (lit "PARIS" ++ "!"%char :: lit " 2024" : list ascii)
    = _normalize (lit "PARIS") ++ _normalize (lit " 2024").
Proof.
  split; [reflexivity|split; [reflexivity|]].
  apply (proj1 (proj2 normalize_keeps_alnum_and_space)); reflexivity.
Defined.

(** C7, as stated, fails: U+0130 is kept and lower-cases to "i" followed by
    U+0307, which a second pass drops. *)
Lemma normalize_not_idempotent_capital_i_dot :
  _normalize (_normalize [CapitalIDotAbove]) <> _normalize [CapitalIDotAbove].
Proof. vm_compute. discriminate. Qed.

(** C7, amended. [_normalize] is idempotent on every text whose kept
    characters lower-case to kept characters that are their own lower
    case. *)
Theorem normalize_idempotent_on_stable (char : Type) (T : PyText char)
    (text : list char) :
  stable_text text = true ->
  _normalize (_normalize text) = _normalize text.
Proof.
  induction text as [|ch text IH]; [reflexivity|].
  simpl. intros [Hch Htext]%andb_prop.
  rewrite normalize_cons, normalize_app, IH by exact Htext.
  f_equal. destruct (kept ch); [|reflexivity].
  apply normalize_fixed, Hch.
Qed.

Lemma normalize_idempotent_on_stable_witness :
  stable_text (lit "PARIS!" : list ascii) = true /\
  _normalize (_normalize (lit "PARIS!" : list ascii)) = _normalize (lit "PARIS!").
Proof.
  split; [vm_compute; reflexivity|].
  apply normalize_idempotent_on_stable. vm_compute. reflexivity.
Defined.

(** ** Pipeline orchestrator *)

Section PipelineFacts.
Context {char World : Type} {T : PyText char} {host : Host char World}.

Implicit Types (q plan : list char) (c : AgentConfig char)
  (config ac : gmap string (pyval char)) (st : Sys char World).

Lemma config_dict_use_planner c :
  config_dict c !! "use_planner" = Some (PyBool (use_planner c)).
Proof. reflexivity. Qed.

Lemma config_dict_planner c :
  config_dict c !! "planner" = Some (PyDict (stage_dict (planner c))).
Proof. reflexivity. Qed.

Lemma config_dict_solver c :
  config_dict c !! "solver" = Some (PyDict (stage_dict (solver c))).
Proof. reflexivity. Qed.

Lemma stage_dict_prompt (s : StageConfig char) :
  stage_dict s !! "system_prompt" = Some (PyStr (system_prompt s)).
Proof. reflexivity. Qed.

Lemma stage_dict_budget (s : StageConfig char) :
  stage_dict s !! "max_tokens" = Some (PyInt (max_tokens s)).
Proof. reflexivity. Qed.

Lemma solver_input_spec q plan :
  (if bool_decide (plan = []) then lit "Question: " ++ q
   else (lit "Question: " ++ q) ++ lit (String "010" "Plan: ") ++ plan)
  = spec_solver_input q plan.
Proof. destruct plan; reflexivity. Qed.

Lemma bind_ret_r {A} (m : M char World A) st : bind m ret st = m st.
Proof. unfold bind, ret. destruct (m st) as [[a|e] st']; reflexivity. Qed.

Lemma call_llm_send (prompt : pyval char) (user : list char) (n : Z) st :
  _call_llm prompt user n st = send (MkCall (lit "gpt-4o-mini") prompt user n) st.
Proof.
  unfold _call_llm, send.
  destruct (chat_completions_create _ _) as [[content|e] w]; reflexivity.
Qed.

(** Each request is recorded, whatever the provider answers. *)
Lemma send_records (call : Call char) st :
  llm_calls (send call st).2 = llm_calls st ++ [call].
Proof.
  unfold send. destruct (chat_completions_create _ _) as [resp w]. reflexivity.
Qed.

Ltac unfold_run :=
  unfold run_multi_agent;
  unfold mbind, M_bind, bind, try, mret, M_ret, ret;
  cbn [from_option id].

Lemma run_follows_spec ac q c st :
  run_multi_agent ac q (Some (config_dict c)) st = spec_run q c st.
Proof.
  unfold spec_run, spec_plan, complete. unfold_run.
  rewrite config_dict_use_planner. cbn [from_option id py_truthy].
  unfold py_getitem, py_get. rewrite config_dict_planner, config_dict_solver.
  rewrite !stage_dict_prompt, !stage_dict_budget. cbn [from_option id py_int].
  destruct (use_planner c).
  - destruct (_call_llm _ _ _ st) as [[plan|e] st1]; [|reflexivity].
    rewrite solver_input_spec. apply (bind_ret_r (_call_llm _ _ _)).
  - rewrite solver_input_spec. apply (bind_ret_r (_call_llm _ _ _)).
Qed.

(** With the planner off, a run is the solver's request and nothing else. *)
Lemma run_planner_off ac q config st :
  planner_off config ->
  run_multi_agent ac q (Some config) st =
  match solver_request q config with
  | Ok call => send call st
  | Raise e => (Raise e, st)
  end.
Proof.
  unfold planner_off. intros Hoff. unfold_run. rewrite Hoff.
  unfold solver_request.
  destruct (py_getitem (PyDict config) "solver") as [solver_cfg|e]; [|reflexivity].
  destruct (py_getitem solver_cfg "system_prompt") as [prompt|e]; [|reflexivity].
  destruct (py_get solver_cfg "max_tokens" (PyInt 64)) as [budget|e]; [|reflexivity].
  destruct (py_int budget) as [n|e]; [|reflexivity].
  rewrite bool_decide_eq_true_2 by reflexivity.
  rewrite <- call_llm_send. apply (bind_ret_r (_call_llm _ _ _)).
Qed.

Lemma solver_request_config_dict q c :
  solver_request q (config_dict c) = Ok (solver_call q c []).
Proof. reflexivity. Qed.

(** C8. On a configuration of the schema, [run_multi_agent] is the
    pipeline of the specification: the solver input is "Question: " and
    the question, followed by a line break, "Plan: " and the plan exactly
    when the captured plan is not empty; the answer is what the one solver
    request, sent with the solver's prompt and token budget, returns. *)
Theorem run_sends_solver_request ac q c st :
  run_multi_agent ac q (Some (config_dict c)) st = spec_run q c st /\
  run_multi_agent ac q (Some (config_dict c)) st =
    (let '(captured, st1) := spec_plan q c st in
     match captured with
     | Ok plan => send (solver_call q c plan) st1
     | Raise e => (Raise e, st1)
     end) /\
  (forall plan, spec_solver_input q plan =
     lit "Question: " ++ q ++
     (if bool_decide (plan = []) then [] else lit (String "010" "Plan: ") ++ plan)).
Proof.
  split; [apply run_follows_spec|split].
  - rewrite run_follows_spec. unfold spec_run, mbind, M_bind, bind.
    destruct (spec_plan q c st) as [[plan|e] st1]; [|reflexivity].
    apply call_llm_send.
  - intros [|ch plan]; cbn [spec_solver_input].
    + rewrite bool_decide_eq_true_2 by reflexivity. rewrite app_nil_r. reflexivity.
    + rewrite bool_decide_eq_false_2 by discriminate. rewrite <- app_assoc. reflexivity.
Qed.

(** C9. With [use_planner] false in a configuration of the schema the run
    is exactly one request, the solver's, on the question alone; and for
    any configuration dictionary with [use_planner] false, the run is
    determined by the solver entry: a configuration that differs in the
    planner entry only gives the same run. *)
Theorem planner_off_one_solver_request ac q st :
  (forall c, use_planner c = false ->
     run_multi_agent ac q (Some (config_dict c)) st = send (solver_call q c []) st /\
     llm_calls (run_multi_agent ac q (Some (config_dict c)) st).2 =
       llm_calls st ++ [solver_call q c []]) /\
  (forall config config',
     planner_off config ->
     delete "planner" config = delete "planner" config' ->
     run_multi_agent ac q (Some config) st = run_multi_agent ac q (Some config') st /\
     (length (llm_calls (run_multi_agent ac q (Some config) st).2)
        <= S (length (llm_calls st)))%nat).
Proof.
  split.
  - intros c Hoff.
    assert (run_multi_agent ac q (Some (config_dict c)) st
            = send (solver_call q c []) st) as ->.
    { rewrite run_planner_off; [reflexivity|].
      unfold planner_off. rewrite config_dict_use_planner. exact Hoff. }
    split; [reflexivity|apply send_records].
  - intros config config' Hoff Hsame.
    assert (forall k : string, k <> "planner" -> config !! k = config' !! k) as Hk.
    { intros k Hne.
      rewrite <- (lookup_delete_ne config "planner" k) by congruence.
      rewrite <- (lookup_delete_ne config' "planner" k) by congruence.
      rewrite Hsame. reflexivity. }
    assert (planner_off config') as Hoff'.
    { unfold planner_off. rewrite <- Hk by discriminate. exact Hoff. }
    rewrite !run_planner_off by assumption.
    assert (solver_request q config = solver_request q config') as <-.
    { unfold solver_request, py_getitem. rewrite Hk by discriminate. reflexivity. }
    split; [reflexivity|].
    destruct (solver_request q config) as [call|e].
    + rewrite send_records, length_app. simpl. lia.
    + simpl. lia.
Qed.

(** C10. A planner or solver entry without ["max_tokens"] does not make
    the run fail: the planner request then carries 128 and the solver
    request 64; a value that is present goes through [int()] first. *)
Theorem max_tokens_defaults ac q config (solver_cfg : gmap string (pyval char))
    (solver_prompt : pyval char) st :
  config !! "solver" = Some (PyDict solver_cfg) ->
  solver_cfg !! "system_prompt" = Some solver_prompt ->
  (planner_off config ->
   run_multi_agent ac q (Some config) st =
   match token_budget solver_cfg 64 with
   | Ok m => send (MkCall (lit "gpt-4o-mini") solver_prompt (lit "Question: " ++ q) m) st
   | Raise e => (Raise e, st)
   end) /\
  (forall (planner_cfg : gmap string (pyval char)) (planner_prompt : pyval char),
     py_truthy (default (PyBool false) (config !! "use_planner")) = true ->
     config !! "planner" = Some (PyDict planner_cfg) ->
     planner_cfg !! "system_prompt" = Some planner_prompt ->
     run_multi_agent ac q (Some config) st =
     two_stage q planner_prompt solver_prompt
       (token_budget planner_cfg 128) (token_budget solver_cfg 64) st) /\
  (forall (stage : gmap string (pyval char)) (dflt : Z),
     (stage !! "max_tokens" = None -> token_budget stage dflt = Ok dflt) /\
     (forall v, stage !! "max_tokens" = Some v -> token_budget stage dflt = py_int v)).
Proof.
  intros Hsolver Hprompt. split; [|split].
  - intros Hoff. rewrite run_planner_off by exact Hoff.
    unfold solver_request, py_getitem, py_get, token_budget.
    rewrite Hsolver, Hprompt.
    destruct (solver_cfg !! "max_tokens") as [v|]; cbn [from_option id py_int];
      [destruct (py_int v)|]; reflexivity.
  - intros planner_cfg planner_prompt Hon Hplanner Hpp.
    unfold two_stage. unfold_run. rewrite Hon.
    unfold py_getitem, py_get, token_budget.
    rewrite Hplanner, Hpp, Hsolver, Hprompt.
    destruct (planner_cfg !! "max_tokens") as [v|]; cbn [from_option id py_int].
    + destruct (py_int v) as [n|e]; [|reflexivity].
      destruct (_call_llm _ _ _ st) as [[plan|e] st1]; [|reflexivity].
      rewrite solver_input_spec.
      destruct (solver_cfg !! "max_tokens") as [v'|]; cbn [from_option id py_int];
        [destruct (py_int v'); [|reflexivity]|];
        apply (bind_ret_r (_call_llm _ _ _)).
    + destruct (_call_llm _ _ _ st) as [[plan|e] st1]; [|reflexivity].
      rewrite solver_input_spec.
      destruct (solver_cfg !! "max_tokens") as [v'|]; cbn [from_option id py_int];
        [destruct (py_int v'); [|reflexivity]|];
        apply (bind_ret_r (_call_llm _ _ _)).
  - intros stage dflt. unfold token_budget. split.
    + intros ->. reflexivity.
    + intros v ->. reflexivity.
Qed.
End PipelineFacts.

(** ** Benchmark evaluator *)

Section BenchmarkFacts.
Context {char World : Type} {T : PyText char} {host : Host char World}.

Implicit Types (ac : gmap string (pyval char)) (st : Sys char World)
  (todo : list (EvalExample char)) (answers : list (list char)).

Lemma correct_count_bounds answers todo :
  0 <= correct_count answers todo <= Z.of_nat (length todo).
Proof.
  revert todo. induction answers as [|ans answers IH]; intros [|ex todo];
    cbn [correct_count length]; try lia.
  specialize (IH todo). destruct (_is_correct _ _); lia.
Qed.

(** The loop counts the matching answers. *)
Lemma benchmark_loop_counts ac verbose todo correct st :
  benchmark_loop ac verbose todo correct st =
  (answers ← answer_all ac verbose todo;
   mret (correct + correct_count answers todo)) st.
Proof.
  revert correct st. induction todo as [|ex todo IH]; intros correct st.
  - unfold mbind, M_bind, bind, mret, M_ret, ret. cbn [answer_all benchmark_loop correct_count].
    unfold mret, M_ret, ret. do 2 f_equal. cbn. lia.
  - cbn [benchmark_loop answer_all].
    unfold mbind, M_bind, bind, mret, M_ret, ret in *.
    destruct (run_multi_agent ac (question ex) None st) as [[ans|e] st1];
      [|reflexivity].
    destruct verbose; cbn.
    + rewrite IH. destruct (answer_all _ _ _ _) as [[answers|e] st2]; [|reflexivity].
      f_equal. f_equal. cbn [correct_count]. destruct (_is_correct _ _); lia.
    + rewrite IH. destruct (answer_all _ _ _ _) as [[answers|e] st2]; [|reflexivity].
      f_equal. f_equal. cbn [correct_count]. destruct (_is_correct _ _); lia.
Qed.

Lemma answer_all_length ac verbose todo st answers st' :
  answer_all ac verbose todo st = (Ok answers, st') ->
  length answers = length todo.
Proof.
  revert st answers st'. induction todo as [|ex todo IH]; intros st answers st'.
  - cbn. intros [= <- _]. reflexivity.
  - cbn [answer_all]. unfold mbind, M_bind, bind, mret, M_ret, ret.
    destruct (run_multi_agent _ _ _ _) as [[ans|e] st1]; [|discriminate].
    destruct verbose; cbn.
    + destruct (answer_all _ _ _ _) as [[rest|e] st2] eqn:E; [|discriminate].
      intros [= <- _]. cbn. f_equal. eapply IH, E.
    + destruct (answer_all _ _ _ _) as [[rest|e] st2] eqn:E; [|discriminate].
      intros [= <- _]. cbn. f_equal. eapply IH, E.
Qed.

Lemma sevenths_in_unit_interval (k : Z) :
  0 <= k <= 7 ->
  is_infinity (truediv_Z k 7) = false /\
  (0 <=? truediv_Z k 7)%float = true /\ (truediv_Z k 7 <=? 1)%float = true.
Proof.
  intros Hk.
  assert (k = 0 \/ k = 1 \/ k = 2 \/ k = 3 \/ k = 4 \/ k = 5 \/ k = 6 \/ k = 7)
    as Hcases by lia.
  repeat (destruct Hcases as [->|Hcases]); [..|subst k];
    vm_compute; repeat split; reflexivity.
Qed.

(** What [run_benchmark] returns once the answers are in. *)
Lemma run_benchmark_unfold ac es verbose st :
  run_benchmark ac es verbose st =
  (let '(r, st1) := answer_all ac verbose es st in
   match r with
   | Raise e => (Raise e, st1)
   | Ok answers =>
       let correct := correct_count answers es in
       let n := Z.of_nat (length es) in
       let st2 :=
         if verbose then
           MkSys (world st1) (llm_calls st1)
             (stdout st1 ++ [lit "Correct answers: " ++ py_str_of_int correct ++
                             lit "/" ++ py_str_of_int n])
         else st1 in
       match (match es with [] => Ok 0%float | _ :: _ => int_truediv correct n end) with
       | Raise e => (Raise e, st1)
       | Ok rate =>
           match float_of_int n with
           | Raise e => (Raise e, st2)
           | Ok total =>
               (Ok ({[ "success_rate" := PyFloat rate;
                       "num_examples" := PyFloat total ]} : gmap string (pyval char)),
                st2)
           end
       end
   end).
Proof.
  unfold run_benchmark. unfold mbind at 1. unfold M_bind, bind.
  rewrite benchmark_loop_counts.
  unfold mbind, M_bind, bind, mret, M_ret, ret, try.
  destruct (answer_all ac verbose es st) as [[answers|e] st1]; [|reflexivity].
  rewrite Z.add_0_l.
  destruct es as [|ex es'].
  - destruct verbose; cbn [py_float print]; destruct (float_of_int _); reflexivity.
  - destruct (int_truediv _ _) as [rate|e]; [|reflexivity].
    destruct verbose; cbn [py_float print]; destruct (float_of_int _); reflexivity.
Qed.

Lemma reference_config_dict : config_dict reference_config = (AGENT_CONFIG (char := char)).
Proof. reflexivity. Qed.

Lemma send_answers (call : Call char) st :
  provider_answers -> exists ans st', send call st = (Ok ans, st').
Proof.
  intros Hp. unfold send. destruct (Hp call (world st)) as (content & w' & ->).
  eauto.
Qed.

Lemma run_reference_answers q st :
  provider_answers ->
  exists ans st', run_multi_agent AGENT_CONFIG q None st = (Ok ans, st').
Proof.
  intros Hp.
  assert (run_multi_agent AGENT_CONFIG q None st = spec_run q reference_config st)
    as ->.
  { rewrite <- (run_follows_spec AGENT_CONFIG). reflexivity. }
  unfold spec_run, spec_plan, complete, mbind, M_bind, bind. cbn [use_planner reference_config].
  rewrite call_llm_send.
  destruct (send_answers (MkCall (lit "gpt-4o-mini")
              (PyStr (system_prompt (planner reference_config)))
              (lit "Question: " ++ q) (max_tokens (planner reference_config))) st Hp)
    as (plan & st1 & ->).
  rewrite call_llm_send. apply send_answers, Hp.
Qed.

Lemma answer_all_reference_answers verbose todo st :
  provider_answers ->
  exists answers st', answer_all AGENT_CONFIG verbose todo st = (Ok answers, st').
Proof.
  intros Hp. revert st. induction todo as [|ex todo IH]; intros st.
  - cbn. eauto.
  - cbn [answer_all]. unfold mbind, M_bind, bind, mret, M_ret, ret.
    destruct (run_reference_answers (question ex) st Hp) as (ans & st1 & ->).
    destruct verbose; cbn [print].
    + edestruct IH as (rest & st2 & ->). eauto.
    + edestruct IH as (rest & st2 & ->). eauto.
Qed.

(** C2. Whatever [run_benchmark] returns, for any evaluation set:
    [num_examples] is the length of the set; [success_rate] is the number
    of matching answers divided by that length, and 0.0 for the empty set.
    On the evaluation set of the file, [num_examples] is 7 and
    [success_rate] lies between 0 and 1; and a result is returned whenever
    the provider answers. *)
Theorem run_benchmark_result ac verbose st :
  (forall es m st',
     run_benchmark ac es verbose st = (Ok m, st') ->
     exists answers st1,
       answer_all ac verbose es st = (Ok answers, st1) /\
       length answers = length es /\
       0 <= correct_count answers es <= Z.of_nat (length es) /\
       m !! "num_examples" = Some (PyFloat (float_of_Z (Z.of_nat (length es)))) /\
       m !! "success_rate" =
         Some (PyFloat (match es with
                        | [] => 0%float
                        | _ :: _ => truediv_Z (correct_count answers es)
                                      (Z.of_nat (length es))
                        end))) /\
  (forall m st',
     run_benchmark ac EVAL_SET verbose st = (Ok m, st') ->
     length (EVAL_SET (char := char)) = 7%nat /\
     m !! "num_examples" = Some (PyFloat 7) /\
     exists correct x,
       0 <= correct <= 7 /\ x = truediv_Z correct 7 /\
       m !! "success_rate" = Some (PyFloat x) /\
       (0 <=? x)%float = true /\ (x <=? 1)%float = true) /\
  (provider_answers ->
   exists m st', run_benchmark AGENT_CONFIG EVAL_SET verbose st = (Ok m, st')).
Proof.
  assert (forall ac' es m st',
     run_benchmark ac' es verbose st = (Ok m, st') ->
     exists answers st1,
       answer_all ac' verbose es st = (Ok answers, st1) /\
       length answers = length es /\
       0 <= correct_count answers es <= Z.of_nat (length es) /\
       m !! "num_examples" = Some (PyFloat (float_of_Z (Z.of_nat (length es)))) /\
       m !! "success_rate" =
         Some (PyFloat (match es with
                        | [] => 0%float
                        | _ :: _ => truediv_Z (correct_count answers es)
                                      (Z.of_nat (length es))
                        end))) as Hany.
  { intros ac' es m st'. rewrite run_benchmark_unfold.
    destruct (answer_all ac' verbose es st) as [[answers|e] st1] eqn:Hans;
      [|discriminate].
    cbv zeta. intros Hrun. exists answers, st1.
    split; [reflexivity|].
    split; [eapply answer_all_length, Hans|].
    split; [apply correct_count_bounds|].
    unfold float_of_int, int_truediv in Hrun.
    destruct (is_infinity (float_of_Z (Z.of_nat (length es)))).
    { destruct es; [|destruct (_ =? 0); [|destruct (is_infinity _)]]; discriminate. }
    destruct es as [|ex es'].
    - injection Hrun as <- _. split; reflexivity.
    - destruct (Z.of_nat (length (ex :: es')) =? 0); [discriminate|].
      destruct (is_infinity (truediv_Z _ _)); [discriminate|].
      injection Hrun as <- _. split; reflexivity. }
  split; [apply Hany|split].
  - intros m st' Hrun.
    destruct (Hany ac EVAL_SET m st' Hrun) as (answers & st1 & _ & _ & Hc & Hn & Hr).
    split; [reflexivity|]. split; [exact Hn|].
    exists (correct_count answers EVAL_SET), (truediv_Z (correct_count answers EVAL_SET) 7).
    change (Z.of_nat (length (EVAL_SET (char := char)))) with 7 in Hc.
    split; [exact Hc|]. split; [reflexivity|]. split; [exact Hr|].
    apply sevenths_in_unit_interval, Hc.
  - intros Hp. rewrite run_benchmark_unfold.
    destruct (answer_all_reference_answers verbose EVAL_SET st Hp) as (answers & st1 & ->).
    cbv zeta. unfold int_truediv, float_of_int.
    change (Z.of_nat (length (EVAL_SET (char := char)))) with 7.
    pose proof (correct_count_bounds answers (EVAL_SET (char := char))) as Hc.
    change (Z.of_nat (length (EVAL_SET (char := char)))) with 7 in Hc.
    destruct (sevenths_in_unit_interval _ Hc) as (-> & _).
    cbn [EVAL_SET]. change (7 =? 0) with false. cbv iota.
    change (is_infinity (float_of_Z 7)) with false. cbv iota. eauto.
Qed.
End BenchmarkFacts.

(** ** Candidate loader and optimizer adapter *)

Section EvaluatorFacts.
Context {char World : Type} {T : PyText char} {host : Host char World}.

Implicit Types (path : list char) (st : Sys char World)
  (module : Module char World) (metrics : gmap string (pyval char)).

(** A load error is the error of [evaluate]. *)
Lemma evaluate_load_error path st e st1 :
  _load_program path st = (Raise e, st1) ->
  evaluate path st = (Raise e, st1).
Proof.
  intros Hload. unfold evaluate, mbind, M_bind, bind. rewrite Hload. reflexivity.
Qed.

Lemma evaluate_loaded path st module st1 :
  _load_program path st = (Ok module, st1) ->
  evaluate path st =
  match mod_attrs module !! "run_benchmark" with
  | None => (Raise (AttributeError no_run_benchmark), st1)
  | Some run_benchmark =>
      let '(r, st2) := py_call run_benchmark st1 in
      match r with
      | Raise e => (Raise e, st2)
      | Ok metrics =>
          match py_get metrics "success_rate" (PyFloat 0) with
          | Raise e => (Raise e, st2)
          | Ok v =>
              match py_float v with
              | Raise e => (Raise e, st2)
              | Ok x => (Ok ({[ "score" := x; "combined_score" := x;
                                "success_rate" := x ]} : gmap string float), st2)
              end
          end
      end
  end.
Proof.
  intros Hload. unfold evaluate. unfold mbind at 1. unfold M_bind, bind.
  rewrite Hload. destruct (mod_attrs module !! "run_benchmark") as [a|]; [|reflexivity].
  unfold mbind, M_bind, bind, try, mret, M_ret, ret.
  destruct (py_call a st1) as [[metrics|e] st2]; [|reflexivity].
  destruct (py_get metrics _ _) as [v|e]; [|reflexivity].
  destruct (py_float v) as [x|e]; reflexivity.
Qed.

Lemma report_all_same (x : float) :
  report_all {[ "score" := x; "combined_score" := x; "success_rate" := x ]} x.
Proof. repeat split. Qed.

Lemma load_unresolved path st st1 :
  spec_from_file_location (lit "candidate_program") path st = (Ok None, st1) ->
  _load_program path st =
  (Raise (ImportError (lit "Could not load candidate program from " ++ path)), st1).
Proof.
  intros Hspec. unfold _load_program, mbind, M_bind, bind. rewrite Hspec. reflexivity.
Qed.

Lemma load_without_loader path st spec st1 :
  spec_from_file_location (lit "candidate_program") path st = (Ok (Some spec), st1) ->
  spec_has_loader spec = false ->
  _load_program path st =
  (Raise (ImportError (lit "Could not load candidate program from " ++ path)), st1).
Proof.
  intros Hspec Hloader. unfold _load_program, mbind, M_bind, bind.
  rewrite Hspec, Hloader. reflexivity.
Qed.

Lemma load_not_instantiated path st spec st1 e st2 :
  spec_from_file_location (lit "candidate_program") path st = (Ok (Some spec), st1) ->
  spec_has_loader spec = true ->
  module_from_spec spec st1 = (Raise e, st2) ->
  _load_program path st = (Raise e, st2).
Proof.
  intros Hspec Hloader Hmod. unfold _load_program, mbind, M_bind, bind.
  rewrite Hspec, Hloader, Hmod. reflexivity.
Qed.

Lemma load_not_executed path st spec st1 module st2 e st3 :
  spec_from_file_location (lit "candidate_program") path st = (Ok (Some spec), st1) ->
  spec_has_loader spec = true ->
  module_from_spec spec st1 = (Ok module, st2) ->
  exec_module spec module st2 = (Raise e, st3) ->
  _load_program path st = (Raise e, st3).
Proof.
  intros Hspec Hloader Hmod Hexec. unfold _load_program, mbind, M_bind, bind.
  rewrite Hspec, Hloader, Hmod, Hexec. reflexivity.
Qed.

(** Whatever [float()] makes of the candidate's ["success_rate"] is what
    the three fields hold. *)
Lemma evaluate_reports_converted_rate path st module st1 f metrics st2 v x :
  _load_program path st = (Ok module, st1) ->
  mod_attrs module !! "run_benchmark" = Some (AttrCallable f) ->
  f st1 = (Ok (PyDict metrics), st2) ->
  metrics !! "success_rate" = Some v ->
  py_float v = Ok x ->
  evaluate path st =
  (Ok {[ "score" := x; "combined_score" := x; "success_rate" := x ]}, st2).
Proof.
  intros Hload Hattr Hrun Hkey Hfloat.
  rewrite (evaluate_loaded _ _ _ _ Hload), Hattr. cbn [py_call]. rewrite Hrun.
  cbn [py_get]. rewrite Hkey. cbn [from_option id]. rewrite Hfloat. reflexivity.
Qed.

(** A float that is at least 0 is not NaN: it equals itself. *)
Lemma at_least_zero_equals_itself (x : float) :
  (0 <=? x)%float = true -> py_float_eq x x = true.
Proof.
  unfold py_float_eq. rewrite FloatAxioms.leb_spec, FloatAxioms.eqb_spec.
  unfold SFleb, SFeqb.
  destruct (Prim2SF x) as [s|s| |s m e]; cbn; try discriminate; intros _.
  - reflexivity.
  - destruct s; reflexivity.
  - destruct s; rewrite Z.compare_refl, Pos.compare_cont_refl; reflexivity.
Qed.

Lemma report_same_py_equal (x : float) :
  py_float_eq x x = true ->
  report_py_equal {[ "score" := x; "combined_score" := x; "success_rate" := x ]} x.
Proof. intros Hx. exists x, x, x. repeat split; exact Hx. Qed.

(** C1. For a candidate that loads and whose [run_benchmark] returns a
    dictionary with a float [success_rate], [evaluate] returns a report
    whose three fields hold that very [success_rate].  When it is not NaN,
    and so whenever it lies between 0 and 1 as the contract of a candidate
    has it, the comparisons [score == combined_score == success_rate] and
    [success_rate ==] the candidate's value are true in Python as well. *)
Theorem evaluate_reports_success_rate path st module st1 f metrics st2 x :
  _load_program path st = (Ok module, st1) ->
  mod_attrs module !! "run_benchmark" = Some (AttrCallable f) ->
  f st1 = (Ok (PyDict metrics), st2) ->
  metrics !! "success_rate" = Some (PyFloat x) ->
  exists report,
    evaluate path st = (Ok report, st2) /\
    report_all report x /\
    (is_nan x = false -> report_py_equal report x) /\
    ((0 <=? x)%float = true -> (x <=? 1)%float = true -> report_py_equal report x).
Proof.
  intros Hload Hattr Hrun Hkey.
  exists {[ "score" := x; "combined_score" := x; "success_rate" := x ]}.
  split; [|split; [apply report_all_same|split]].
  - apply (evaluate_reports_converted_rate path st module st1 f metrics st2
             (PyFloat x) x Hload Hattr Hrun Hkey).
    reflexivity.
  - unfold is_nan. intros Hnan%negb_false_iff.
    apply report_same_py_equal, Hnan.
  - intros Hlow _. apply report_same_py_equal, at_least_zero_equals_itself, Hlow.
Qed.

(** C3, amended. When the location cannot be resolved, or resolves to
    a spec without loader, [evaluate] raises the [ImportError] of
    [_load_program]; when the module cannot be created or executed, it
    raises what the import machinery raised, unchanged; when the loaded
    module has no [run_benchmark], it raises an [AttributeError], which is
    not that [ImportError] (nothing sets it apart from an error that
    executing the candidate raised).  In none of these cases does it
    return a report. *)
Theorem evaluate_load_and_contract_errors path st :
  let load_error := ImportError (lit "Could not load candidate program from " ++ path) in
  let contract_error := AttributeError no_run_benchmark in
  (forall st1,
     spec_from_file_location (lit "candidate_program") path st = (Ok None, st1) ->
     evaluate path st = (Raise load_error, st1)) /\
  (forall spec st1,
     spec_from_file_location (lit "candidate_program") path st = (Ok (Some spec), st1) ->
     spec_has_loader spec = false ->
     evaluate path st = (Raise load_error, st1)) /\
  (forall spec st1 e st2,
     spec_from_file_location (lit "candidate_program") path st = (Ok (Some spec), st1) ->
     spec_has_loader spec = true ->
     module_from_spec spec st1 = (Raise e, st2) ->
     evaluate path st = (Raise e, st2)) /\
  (forall spec st1 module st2 e st3,
     spec_from_file_location (lit "candidate_program") path st = (Ok (Some spec), st1) ->
     spec_has_loader spec = true ->
     module_from_spec spec st1 = (Ok module, st2) ->
     exec_module spec module st2 = (Raise e, st3) ->
     evaluate path st = (Raise e, st3)) /\
  (forall module st1,
     _load_program path st = (Ok module, st1) ->
     mod_attrs module !! "run_benchmark" = None ->
     evaluate path st = (Raise contract_error, st1)) /\
  contract_error <> load_error /\
  (forall e st1,
     (_load_program path st = (Raise e, st1) \/
      exists module, _load_program path st = (Ok module, st1) /\
                     mod_attrs module !! "run_benchmark" = None) ->
     forall report st', evaluate path st <> (Ok report, st')).
Proof.
  cbv zeta. repeat split.
  - intros st1 Hspec. apply evaluate_load_error, load_unresolved, Hspec.
  - intros spec st1 Hspec Hloader.
    eapply evaluate_load_error, load_without_loader; eassumption.
  - intros spec st1 e st2 Hspec Hloader Hmod.
    eapply evaluate_load_error, load_not_instantiated; eassumption.
  - intros spec st1 module st2 e st3 Hspec Hloader Hmod Hexec.
    eapply evaluate_load_error, load_not_executed; eassumption.
  - intros module st1 Hload Hattr.
    rewrite (evaluate_loaded _ _ _ _ Hload), Hattr. reflexivity.
  - discriminate.
  - intros e st1 [Hload|(module & Hload & Hattr)] report st'.
    + rewrite (evaluate_load_error _ _ _ _ Hload). discriminate.
    + rewrite (evaluate_loaded _ _ _ _ Hload), Hattr. discriminate.
Qed.

(** C4, amended. When the dictionary [run_benchmark] returns has no
    ["success_rate"], [evaluate] returns a report with 0.0 in its three
    fields; when the key is there with a value [float()] refuses,
    [evaluate] raises that error ([TypeError] for [None] or a dictionary,
    [ValueError] for text that is not a number) and returns no report. *)
Theorem evaluate_missing_or_unconvertible path st module st1 f metrics st2 :
  _load_program path st = (Ok module, st1) ->
  mod_attrs module !! "run_benchmark" = Some (AttrCallable f) ->
  f st1 = (Ok (PyDict metrics), st2) ->
  (metrics !! "success_rate" = None ->
   exists report, evaluate path st = (Ok report, st2) /\ report_all report 0%float) /\
  (forall v e,
     metrics !! "success_rate" = Some v ->
     py_float v = Raise e ->
     evaluate path st = (Raise e, st2)) /\
  py_float (PyNone : pyval char) = Raise TypeError /\
  (forall d, py_float (PyDict d : pyval char) = Raise TypeError) /\
  (forall s : list char, str_to_float s = None -> py_float (PyStr s) = Raise ValueError).
Proof.
  intros Hload Hattr Hrun.
  assert (evaluate path st =
          match py_float (default (PyFloat 0) (metrics !! "success_rate")) with
          | Raise e => (Raise e, st2)
          | Ok x => (Ok ({[ "score" := x; "combined_score" := x;
                            "success_rate" := x ]} : gmap string float), st2)
          end) as Heval.
  { rewrite (evaluate_loaded _ _ _ _ Hload), Hattr. cbn [py_call]. rewrite Hrun.
    reflexivity. }
  split; [|split; [|split; [|split]]].
  - intros Hkey. eexists. split; [|apply report_all_same].
    rewrite Heval, Hkey. reflexivity.
  - intros v e Hkey Hfloat. rewrite Heval, Hkey. cbn [from_option id].
    rewrite Hfloat. reflexivity.
  - reflexivity.
  - reflexivity.
  - intros s Hs. cbn [py_float]. rewrite Hs. reflexivity.
Qed.
End EvaluatorFacts.

(** ** The properties on the example data *)

Lemma evaluate_reports_success_rate_witness :
  exists report,
    evaluate (host := demo_host) (lit "half.py") fresh = (Ok report, fresh) /\
    report_all report 0.5%float /\
    report_py_equal report 0.5%float.
Proof.
  destruct (evaluate_reports_success_rate (host := demo_host) (lit "half.py") fresh
              (module_returning (PyDict {[ "success_rate" := PyFloat 0.5 ]})) fresh
              (mret (PyDict {[ "success_rate" := PyFloat 0.5 ]}))
              {[ "success_rate" := PyFloat 0.5 ]} fresh 0.5%float)
    as (report & Heval & Hall & _ & Hunit); try (vm_compute; reflexivity).
  exists report. split; [exact Heval|]. split; [exact Hall|].
  apply Hunit; reflexivity.
Defined.

(** Beyond the contract of a candidate: an [int] too large for a float
    makes [float()], and so [evaluate], raise [OverflowError]. *)
Lemma evaluate_huge_success_rate_raises :
  _load_program (host := demo_host) (lit "huge.py") fresh
    = (Ok (module_returning (PyDict {[ "success_rate" := PyInt (2 ^ 1024) ]})), fresh) /\
  is_numeric (PyInt (2 ^ 1024) : pyval ascii) = true /\
  evaluate (host := demo_host) (lit "huge.py") fresh = (Raise OverflowError, fresh).
Proof. repeat split; vm_compute; reflexivity. Qed.

Lemma run_benchmark_result_witness :
  let run := run_benchmark (host := demo_host) AGENT_CONFIG EVAL_SET false fresh in
  run = (Ok paris_metrics, run.2) /\
  (length (EVAL_SET (char := ascii)) = 7%nat /\
   paris_metrics !! "num_examples" = Some (PyFloat 7) /\
   exists correct x,
     0 <= correct <= 7 /\ x = truediv_Z correct 7 /\
     paris_metrics !! "success_rate" = Some (PyFloat x) /\
     (0 <=? x)%float = true /\ (x <=? 1)%float = true).
Proof.
  cbv zeta. split; [vm_compute; reflexivity|].
  apply (proj1 (proj2 (run_benchmark_result (host := demo_host) AGENT_CONFIG false fresh))
           paris_metrics
           (run_benchmark (host := demo_host) AGENT_CONFIG EVAL_SET false fresh).2).
  vm_compute. reflexivity.
Defined.

(** C3, as stated, fails: the error of a candidate that cannot be
    executed is whatever its top level raised, and that can be the very
    [AttributeError] a candidate without [run_benchmark] gets: the load
    failure and the contract failure are then the same failure. *)
Lemma load_failure_can_equal_contract_failure :
  _load_program (host := look_alike_host) (lit "raises_at_top_level.py") fresh
    = (Raise (AttributeError no_run_benchmark), fresh) /\
  _load_program (host := look_alike_host) (lit "defines_nothing.py") fresh
    = (Ok (MkModule ∅), fresh) /\
  evaluate (host := look_alike_host) (lit "raises_at_top_level.py") fresh
    = evaluate (host := look_alike_host) (lit "defines_nothing.py") fresh.
Proof. repeat split; vm_compute; reflexivity. Qed.

Lemma evaluate_load_and_contract_errors_witness :
  evaluate (host := demo_host) (lit "missing.txt") fresh
    = (Raise (ImportError (lit "Could not load candidate program from missing.txt")), fresh) /\
  evaluate (host := demo_host) (lit "broken.py") fresh
    = (Raise (OtherError "SyntaxError" (lit "invalid syntax")), fresh) /\
  evaluate (host := demo_host) (lit "no_benchmark.py") fresh
    = (Raise (AttributeError no_run_benchmark), fresh).
Proof.
  split; [|split].
  - apply (evaluate_load_and_contract_errors (host := demo_host) (lit "missing.txt") fresh).
    vm_compute. reflexivity.
  - eapply (evaluate_load_and_contract_errors (host := demo_host) (lit "broken.py") fresh);
      vm_compute; reflexivity.
  - eapply (evaluate_load_and_contract_errors (host := demo_host) (lit "no_benchmark.py") fresh);
      vm_compute; reflexivity.
Defined.

(** C4, as stated, fails: with [None] for ["success_rate"], [evaluate]
    raises [TypeError] instead of returning 0.0. *)
Lemma evaluate_none_success_rate_raises :
  _load_program (host := demo_host) (lit "none.py") fresh
    = (Ok (module_returning (PyDict {[ "success_rate" := PyNone ]})), fresh) /\
  is_numeric (PyNone : pyval ascii) = false /\
  evaluate (host := demo_host) (lit "none.py") fresh = (Raise TypeError, fresh).
Proof. repeat split; vm_compute; reflexivity. Qed.

Lemma evaluate_missing_or_unconvertible_witness :
  exists report,
    evaluate (host := demo_host) (lit "empty.py") fresh = (Ok report, fresh) /\
    report_all report 0%float.
Proof.
  eapply (evaluate_missing_or_unconvertible (host := demo_host) (lit "empty.py") fresh
            (module_returning (PyDict ∅)) fresh (mret (PyDict ∅)) ∅ fresh);
    vm_compute; reflexivity.
Defined.

Lemma planner_off_one_solver_request_witness :
  let q : list ascii := lit "What is the capital of France?" in
  let config := config_dict solver_only_config in
  (run_multi_agent (host := demo_host) AGENT_CONFIG q (Some config) fresh
     = send (host := demo_host) (solver_call q solver_only_config []) fresh /\
   llm_calls (run_multi_agent (host := demo_host) AGENT_CONFIG q (Some config) fresh).2
     = [] ++ [solver_call q solver_only_config []]) /\
  (run_multi_agent (host := demo_host) AGENT_CONFIG q (Some config) fresh
     = run_multi_agent (host := demo_host) AGENT_CONFIG q
         (Some (<["planner" := PyNone]> config)) fresh /\
   (length (llm_calls (run_multi_agent (host := demo_host) AGENT_CONFIG q
                         (Some config) fresh).2) <= 1)%nat).
Proof.
  cbv zeta.
  destruct (planner_off_one_solver_request (host := demo_host) AGENT_CONFIG
              (lit "What is the capital of France?") fresh) as [Htyped Hdict].
  split.
  - apply Htyped. reflexivity.
  - apply Hdict.
    + reflexivity.
    + symmetry. apply delete_insert_eq.
Defined.

Lemma max_tokens_defaults_witness :
  let q : list ascii := lit "What is the capital of France?" in
  run_multi_agent (host := demo_host) AGENT_CONFIG q (Some config_without_budgets) fresh
    = two_stage (host := demo_host) q (PyStr (lit "Plan.")) (PyStr (lit "Answer."))
        (Ok 128) (Ok 64) fresh /\
  map call_max_tokens
    (llm_calls (run_multi_agent (host := demo_host) AGENT_CONFIG q
                  (Some config_without_budgets) fresh).2) = [128; 64].
Proof.
  cbv zeta.
  destruct (max_tokens_defaults (host := demo_host) AGENT_CONFIG
              (lit "What is the capital of France?") config_without_budgets
              {[ "system_prompt" := PyStr (lit "Answer.") ]} (PyStr (lit "Answer."))
              fresh eq_refl eq_refl) as (_ & Hon & _).
  rewrite (Hon {[ "system_prompt" := PyStr (lit "Plan.") ]} (PyStr (lit "Plan."))
             eq_refl eq_refl eq_refl).
  split; vm_compute; reflexivity.
Defined.

(** ** Worked examples *)

(** The pipeline of the file on one question, with a provider that always
    answers " Paris ": the planner is asked first, the solver sees the
    plan, and the answer comes back stripped. *)
Example run_reference_on_paris :
  let q : list ascii := lit "What is the capital of France?" in
  let '(answer, st) := run_multi_agent (host := demo_host) AGENT_CONFIG q None fresh in
  answer = Ok (lit "Paris") /\
  map call_user (llm_calls st) =
    [ lit "Question: What is the capital of France?";
      lit "Question: What is the capital of France?" ++ lit (String "010" "Plan: Paris") ] /\
  map call_max_tokens (llm_calls st) = [128; 32] /\
  _is_correct (lit "Paris" : list ascii) (lit "paris") = true.
Proof. vm_compute. repeat split. Qed.

(** [evaluate] on the file itself, same provider: one example in seven. *)
Example evaluate_best_program :
  (evaluate (host := demo_host) (lit "best_program.py") fresh).1
  = Ok {[ "score" := truediv_Z 1 7; "combined_score" := truediv_Z 1 7;
          "success_rate" := truediv_Z 1 7 ]}.
Proof. vm_compute. reflexivity. Qed.

(** A verbose pass prints three lines for each example and the tally. *)
Example verbose_benchmark_prints :
  let st := (run_benchmark (host := demo_host) AGENT_CONFIG EVAL_SET true fresh).2 in
  length (stdout st) = 22%nat /\
  last (stdout st) = Some (lit "Correct answers: 1/7") /\
  length (llm_calls st) = 14%nat.
Proof. vm_compute. repeat split. Qed.

(** The conversions agree with CPython on some telling inputs. *)
Example conversions :
  py_int (PyFloat 32.75 : pyval ascii) = Ok 32 /\
  py_int (PyFloat (-32.75) : pyval ascii) = Ok (-32) /\
  py_int (PyStr (lit " 1_000 ") : pyval ascii) = Ok 1000 /\
  py_int (PyFloat nan : pyval ascii) = Raise ValueError /\
  py_int (PyFloat infinity : pyval ascii) = Raise OverflowError /\
  py_float (PyStr (lit "0.5") : pyval ascii) = Ok 0.5%float /\
  py_float (PyStr (lit "abc") : pyval ascii) = Raise ValueError /\
  py_float (PyInt (2 ^ 53 + 1) : pyval ascii) = Ok 9007199254740992%float /\
  py_float (PyInt (2 ^ 1024 - 2 ^ 970 - 1) : pyval ascii) = Ok 0x1.fffffffffffffp+1023%float /\
  py_float (PyInt (2 ^ 1024 - 2 ^ 970) : pyval ascii) = Raise OverflowError.
Proof. vm_compute. repeat split. Qed.

(** * Further properties *)

(** ** Grading *)

Section GradingFacts.
Context {char : Type} {T : PyText char}.

Implicit Types (answer expected s before after : list char).

Lemma str_contains_nil s : str_contains [] s = true.
Proof.
  destruct s; cbn; rewrite bool_decide_eq_true_2; try reflexivity;
    apply prefix_nil.
Qed.

(** X1. An expected text that normalizes to nothing (the empty string,
    or punctuation only) is found in every answer. *)
Theorem is_correct_blank_expected answer expected :
  _normalize expected = [] -> _is_correct answer expected = true.
Proof.
  intros Hexp. unfold _is_correct. rewrite Hexp. apply str_contains_nil.
Qed.

(** X2. Text put before or after a correct answer leaves it correct. *)
Theorem is_correct_embedded answer expected before after :
  _is_correct answer expected = true ->
  _is_correct (before ++ answer ++ after) expected = true.
Proof.
  unfold _is_correct. rewrite !str_contains_true.
  intros (l & r & Hin). rewrite !normalize_app, Hin.
  exists (_normalize before ++ l), (r ++ _normalize after).
  rewrite <- !app_assoc. reflexivity.
Qed.

(** X3. Normalizing a concatenation is concatenating the normalized
    parts: no character is judged by its neighbours. *)
Theorem normalize_concat s s' :
  _normalize (s ++ s') = _normalize s ++ _normalize s'.
Proof.
  induction s as [|ch s IH]; [reflexivity|].
  rewrite <- app_comm_cons, !normalize_cons, IH, app_assoc. reflexivity.
Qed.
End GradingFacts.

Lemma is_correct_blank_expected_witness :
  _normalize (lit "?!" : list ascii) = [] /\
  _is_correct (lit "Rome" : list ascii) (lit "?!") = true.
Proof.
  split; [reflexivity|]. apply is_correct_blank_expected. reflexivity.
Defined.

Lemma is_correct_embedded_witness :
  _is_correct (lit "Paris" : list ascii) (lit "paris") = true /\
  _is_correct (lit "It is " ++ lit "Paris" ++ lit ", of course." : list ascii)
    (lit "paris") = true.
Proof.
  split; [reflexivity|]. apply is_correct_embedded. reflexivity.
Defined.

(** Facts about single Latin-1 characters, by enumeration. *)
Lemma latin1_char_facts (c : ascii) :
  kept (latin1_lower c) = kept c /\
  latin1_lower (latin1_lower c) = latin1_lower c.
Proof.
  destruct c as [[] [] [] [] [] [] [] []]; vm_compute; split; reflexivity.
Qed.

(** X4. On Latin-1 text the normalized text is made of kept characters
    that are their own lower case, and is no longer than the text. *)
Theorem latin1_normalize_alphabet (s : list ascii) :
  Forall (fun d => kept d = true /\ latin1_lower d = d) (_normalize s) /\
  (length (_normalize s) <= length s)%nat.
Proof.
  induction s as [|c s [IHall IHlen]]; [split; [constructor|reflexivity]|].
  rewrite normalize_cons. destruct (kept c) eqn:Hc.
  - cbn [lower latin1_text app length]. split; [|lia].
    constructor; [|exact IHall].
    destruct (latin1_char_facts c) as [Hk Hl]. rewrite Hk, Hl. auto.
  - cbn [app length]. split; [exact IHall|lia].
Qed.

(** X5. Two Latin-1 texts that differ in letter case only normalize to
    the same text, so neither the case of the answer nor that of the
    expected text matters to [_is_correct]. *)
Theorem latin1_normalize_ignores_case (s s' : list ascii) :
  map latin1_lower s = map latin1_lower s' ->
  _normalize s = _normalize s' /\
  (forall expected, _is_correct s expected = _is_correct s' expected) /\
  (forall answer, _is_correct answer s = _is_correct answer s').
Proof.
  assert (forall t : list ascii, _normalize t = _normalize (map latin1_lower t)) as Hlow.
  { induction t as [|c t IH]; [reflexivity|].
    cbn [map]. rewrite !normalize_cons, IH.
    destruct (latin1_char_facts c) as [-> Hl].
    cbn [lower latin1_text]. rewrite Hl. reflexivity. }
  intros Hcase.
  assert (_normalize s = _normalize s') as Hsame.
  { rewrite (Hlow s), (Hlow s'), Hcase. reflexivity. }
  split; [exact Hsame|]. unfold _is_correct. rewrite Hsame. split; reflexivity.
Qed.

Lemma latin1_normalize_ignores_case_witness :
  map latin1_lower (lit "JANE Austen") = map latin1_lower (lit "jane austen") /\
  _normalize (lit "JANE Austen" : list ascii) = _normalize (lit "jane austen").
Proof.
  split; [reflexivity|].
  apply (latin1_normalize_ignores_case (lit "JANE Austen") (lit "jane austen")).
  reflexivity.
Defined.

(** ** Completion stage *)

Section StripFacts.
Context {char : Type} {T : PyText char}.

Implicit Types (s : list char) (c : char).

Lemma last_rev s : last (rev s) = head s.
Proof. destruct s as [|c s]; [reflexivity|]. cbn [rev]. apply last_snoc. Qed.

Lemma head_rev s : head (rev s) = last s.
Proof. rewrite <- (rev_involutive s) at 2. symmetry. apply last_rev. Qed.

Lemma lstrip_head s c : head (lstrip s) = Some c -> isspace c = false.
Proof.
  induction s as [|d s IH]; [discriminate|].
  cbn [lstrip]. destruct (isspace d) eqn:Hd; [exact IH|].
  intros [= <-]. exact Hd.
Qed.

(** [lstrip] removes a blank prefix and nothing else. *)
Lemma lstrip_split s : exists pre, s = pre ++ lstrip s /\ blank pre = true.
Proof.
  induction s as [|d s (pre & Hs & Hpre)]; [exists []; split; reflexivity|].
  cbn [lstrip]. destruct (isspace d) eqn:Hd.
  - exists (d :: pre). split; [cbn; f_equal; exact Hs|].
    unfold blank in *. cbn. rewrite Hd, Hpre. reflexivity.
  - exists []. split; reflexivity.
Qed.

Lemma lstrip_blank s : blank s = true -> lstrip s = [].
Proof.
  unfold blank. induction s as [|d s IH]; [reflexivity|].
  cbn. intros [Hd Hs]%andb_prop. rewrite Hd. apply IH, Hs.
Qed.

Lemma strip_blank s : blank s = true -> strip s = [].
Proof. intros Hs. unfold strip. rewrite (lstrip_blank s Hs). reflexivity. Qed.

Lemma strip_last s c : last (strip s) = Some c -> isspace c = false.
Proof. unfold strip. rewrite last_rev. apply lstrip_head. Qed.

Lemma strip_head s c : head (strip s) = Some c -> isspace c = false.
Proof.
  unfold strip. rewrite head_rev.
  destruct (lstrip_split (rev (lstrip s))) as (pre & Hsplit & _).
  intros Hlast.
  assert (last (rev (lstrip s)) = Some c) as Hrev.
  { rewrite Hsplit, last_app, Hlast. reflexivity. }
  rewrite last_rev in Hrev. apply (lstrip_head s), Hrev.
Qed.
End StripFacts.

Section StageFacts.
Context {char World : Type} {T : PyText char} {host : Host char World}.

Implicit Types (q plan : list char) (config ac : gmap string (pyval char))
  (st : Sys char World) (call : Call char).

(** What [send] leaves behind. *)
Lemma send_state call st :
  send call st =
  ((send call st).1,
   MkSys (chat_completions_create call (world st)).2 (llm_calls st ++ [call]) (stdout st)).
Proof.
  unfold send. destruct (chat_completions_create _ _) as [resp w]. reflexivity.
Qed.

Lemma send_answer_stripped call st ans st' :
  send call st = (Ok ans, st') ->
  (forall c, head ans = Some c -> isspace c = false) /\
  (forall c, last ans = Some c -> isspace c = false).
Proof.
  unfold send. destruct (chat_completions_create _ _) as [[content|e] w];
    [|discriminate].
  intros [= <- _]. split; intros c; [apply strip_head|apply strip_last].
Qed.

(** The run of any configuration dictionary, stage by stage. *)
Lemma run_stages ac q config st :
  run_multi_agent ac q (Some config) st =
  if py_truthy (default (PyBool false) (config !! "use_planner")) then
    match stage_request config "planner" 128 (lit "Question: " ++ q) with
    | Raise e => (Raise e, st)
    | Ok planner_call =>
        let '(captured, st1) := send planner_call st in
        match captured with
        | Raise e => (Raise e, st1)
        | Ok plan =>
            match stage_request config "solver" 64 (spec_solver_input q plan) with
            | Raise e => (Raise e, st1)
            | Ok solver_call => send solver_call st1
            end
        end
    end
  else
    match stage_request config "solver" 64 (lit "Question: " ++ q) with
    | Raise e => (Raise e, st)
    | Ok solver_call => send solver_call st
    end.
Proof.
  unfold run_multi_agent.
  unfold mbind, M_bind, bind, try, mret, M_ret, ret. cbn [from_option id].
  unfold stage_request.
  destruct (py_truthy _).
  - destruct (py_getitem (PyDict config) "planner") as [pcfg|e]; [|reflexivity].
    destruct (py_getitem pcfg "system_prompt") as [pp|e]; [|reflexivity].
    destruct (py_get pcfg "max_tokens" (PyInt 128)) as [pb|e]; [|reflexivity].
    destruct (py_int pb) as [pn|e]; [|reflexivity].
    rewrite call_llm_send.
    destruct (send _ st) as [[plan|e] st1]; [|reflexivity].
    rewrite solver_input_spec.
    destruct (py_getitem (PyDict config) "solver") as [scfg|e]; [|reflexivity].
    destruct (py_getitem scfg "system_prompt") as [sp|e]; [|reflexivity].
    destruct (py_get scfg "max_tokens" (PyInt 64)) as [sb|e]; [|reflexivity].
    destruct (py_int sb) as [sn|e]; [|reflexivity].
    rewrite <- call_llm_send. apply (bind_ret_r (_call_llm _ _ _)).
  - destruct (py_getitem (PyDict config) "solver") as [scfg|e]; [|reflexivity].
    destruct (py_getitem scfg "system_prompt") as [sp|e]; [|reflexivity].
    destruct (py_get scfg "max_tokens" (PyInt 64)) as [sb|e]; [|reflexivity].
    destruct (py_int sb) as [sn|e]; [|reflexivity].
    rewrite bool_decide_eq_true_2 by reflexivity.
    rewrite <- call_llm_send. apply (bind_ret_r (_call_llm _ _ _)).
Qed.

Lemma stage_request_shape config stage dflt user call :
  stage_request config stage dflt user = Ok call ->
  call_model call = lit "gpt-4o-mini" /\ call_user call = user.
Proof.
  unfold stage_request.
  destruct (py_getitem _ _) as [cfg|]; [|discriminate].
  destruct (py_getitem cfg _) as [prompt|]; [|discriminate].
  destruct (py_get _ _ _) as [budget|]; [|discriminate].
  destruct (py_int _) as [n|]; [|discriminate].
  intros [= <-]. split; reflexivity.
Qed.

Lemma solver_input_prefix q plan :
  (lit "Question: " ++ q) `prefix_of` spec_solver_input q plan.
Proof.
  destruct plan as [|c plan]; cbn [spec_solver_input].
  - reflexivity.
  - apply prefix_app_r. reflexivity.
Qed.

(** X6. An answer of [_call_llm], and so of [run_multi_agent] under any
    configuration, has no white space at either end; it is empty when the
    provider gives no content or white space only. *)
Theorem answers_are_stripped ac q config st :
  (forall prompt user n ans st',
     _call_llm prompt user n st = (Ok ans, st') ->
     (forall c, head ans = Some c -> isspace c = false) /\
     (forall c, last ans = Some c -> isspace c = false)) /\
  (forall prompt user n content w,
     chat_completions_create (MkCall (lit "gpt-4o-mini") prompt user n) (world st)
       = (Ok content, w) ->
     blank (default [] content) = true ->
     (_call_llm prompt user n st).1 = Ok []) /\
  (forall ans st',
     run_multi_agent ac q (Some config) st = (Ok ans, st') ->
     (forall c, head ans = Some c -> isspace c = false) /\
     (forall c, last ans = Some c -> isspace c = false)).
Proof.
  split; [|split].
  - intros prompt user n ans st'. rewrite call_llm_send. apply send_answer_stripped.
  - intros prompt user n content w Hchat Hblank.
    unfold _call_llm. rewrite Hchat. cbn. rewrite strip_blank by exact Hblank.
    reflexivity.
  - intros ans st'. rewrite run_stages.
    destruct (py_truthy _).
    + destruct (stage_request config "planner" _ _) as [pc|]; [|discriminate].
      destruct (send pc st) as [[plan|] st1]; [|discriminate].
      destruct (stage_request config "solver" _ _) as [sc|]; [|discriminate].
      apply send_answer_stripped.
    + destruct (stage_request config "solver" _ _) as [sc|]; [|discriminate].
      apply send_answer_stripped.
Qed.

(** X7. Under any configuration [run_multi_agent] prints nothing, keeps
    the requests recorded before it and adds at most two, each to the
    model gpt-4o-mini with a user message that starts with "Question: "
    and the question. *)
Theorem run_sends_at_most_two ac q config st :
  let st' := (run_multi_agent ac q (Some config) st).2 in
  stdout st' = stdout st /\
  exists calls,
    llm_calls st' = llm_calls st ++ calls /\
    (length calls <= 2)%nat /\
    Forall (fun call =>
              call_model call = lit "gpt-4o-mini" /\
              (lit "Question: " ++ q) `prefix_of` call_user call) calls.
Proof.
  cbv zeta. rewrite run_stages.
  assert (forall call user st0,
            call_model call = lit "gpt-4o-mini" /\ call_user call = user ->
            (lit "Question: " ++ q) `prefix_of` user ->
            Forall (fun call => call_model call = lit "gpt-4o-mini" /\
                                (lit "Question: " ++ q) `prefix_of` call_user call)
                   [call]) as Hone.
  { intros call user _ [Hm Hu] Hp. constructor; [|constructor].
    rewrite Hu. auto. }
  destruct (py_truthy _).
  - destruct (stage_request config "planner" _ _) as [pc|e] eqn:Hpc.
    + rewrite (send_state pc st).
      destruct (send pc st).1 as [plan|e].
      * destruct (stage_request config "solver" _ _) as [sc|e] eqn:Hsc.
        -- rewrite send_state. cbn. split; [reflexivity|].
           exists [pc; sc]. rewrite <- app_assoc. split; [reflexivity|].
           split; [cbn; lia|].
           apply (Forall_app _ [pc] [sc]). split.
           ++ eapply Hone; [exact st|eapply stage_request_shape, Hpc|reflexivity].
           ++ eapply Hone; [exact st|eapply stage_request_shape, Hsc|].
              apply solver_input_prefix.
        -- cbn. split; [reflexivity|]. exists [pc]. split; [reflexivity|].
           split; [cbn; lia|].
           eapply Hone; [exact st|eapply stage_request_shape, Hpc|reflexivity].
      * cbn. split; [reflexivity|]. exists [pc]. split; [reflexivity|].
        split; [cbn; lia|].
        eapply Hone; [exact st|eapply stage_request_shape, Hpc|reflexivity].
    + cbn. split; [reflexivity|]. exists []. rewrite app_nil_r.
      split; [reflexivity|]. split; [cbn; lia|constructor].
  - destruct (stage_request config "solver" _ _) as [sc|e] eqn:Hsc.
    + rewrite send_state. cbn. split; [reflexivity|]. exists [sc].
      split; [reflexivity|]. split; [cbn; lia|].
      eapply Hone; [exact st|eapply stage_request_shape, Hsc|reflexivity].
    + cbn. split; [reflexivity|]. exists []. rewrite app_nil_r.
      split; [reflexivity|]. split; [cbn; lia|constructor].
Qed.
End StageFacts.

(** ** Orchestrator: what a configuration can get wrong *)

Section RunErrorFacts.
Context {char World : Type} {T : PyText char} {host : Host char World}.

Implicit Types (q plan : list char) (config ac : gmap string (pyval char))
  (st : Sys char World) (call : Call char).

Lemma strip_nil_blank (s : list char) : strip s = [] -> blank s = true.
Proof.
  unfold strip. intros Hs.
  assert (lstrip (rev (lstrip s)) = []) as Hinner.
  { apply (f_equal (@rev char)) in Hs. rewrite rev_involutive in Hs. exact Hs. }
  destruct (lstrip_split s) as (pre & Hsplit & Hpre).
  destruct (lstrip s) as [|c t] eqn:Ht.
  - rewrite Hsplit, app_nil_r. exact Hpre.
  - exfalso.
    assert (isspace c = false) as Hc by (apply (lstrip_head s); rewrite Ht; reflexivity).
    destruct (lstrip_split (rev (c :: t))) as (pre' & Hsplit' & Hpre').
    rewrite Hinner, app_nil_r in Hsplit'.
    assert (In c pre') as Hin.
    { rewrite <- Hsplit'. apply in_rev. rewrite rev_involutive. left. reflexivity. }
    unfold blank in Hpre'. rewrite forallb_forall in Hpre'.
    rewrite (Hpre' c Hin) in Hc. discriminate.
Qed.

(** X8. With the planner on, a planner entry that cannot be read stops
    the run before any request is sent: a missing entry or prompt is a
    [KeyError], an entry that is no dictionary a [TypeError], a budget
    [int()] refuses that error. *)
Theorem planner_entry_errors ac q config st :
  planner_on config ->
  (config !! "planner" = None ->
   run_multi_agent ac q (Some config) st = (Raise (KeyError "planner"), st)) /\
  (forall v, config !! "planner" = Some v ->
     (forall d, v <> PyDict d) ->
     run_multi_agent ac q (Some config) st = (Raise TypeError, st)) /\
  (forall d, config !! "planner" = Some (PyDict d) ->
     d !! "system_prompt" = None ->
     run_multi_agent ac q (Some config) st = (Raise (KeyError "system_prompt"), st)) /\
  (forall d prompt v e, config !! "planner" = Some (PyDict d) ->
     d !! "system_prompt" = Some prompt ->
     d !! "max_tokens" = Some v ->
     py_int v = Raise e ->
     run_multi_agent ac q (Some config) st = (Raise e, st)).
Proof.
  unfold planner_on. intros Hon. rewrite run_stages, Hon.
  unfold stage_request, py_getitem, py_get.
  split; [|split; [|split]].
  - intros ->. reflexivity.
  - intros v -> Hv. destruct v; try reflexivity. destruct (Hv d eq_refl).
  - intros d -> ->. reflexivity.
  - intros d prompt v e -> -> -> . cbn [from_option id]. intros ->. reflexivity.
Qed.

(** X9. The solver entry is read after the planner has answered: when it
    is missing, a run with the planner off raises [KeyError] at once, and
    a run with the planner on has already sent the planner's request. *)
Theorem solver_entry_missing ac q config st :
  config !! "solver" = None ->
  (planner_off config ->
   run_multi_agent ac q (Some config) st = (Raise (KeyError "solver"), st)) /\
  (forall planner_call plan st1,
     planner_on config ->
     stage_request config "planner" 128 (lit "Question: " ++ q) = Ok planner_call ->
     send planner_call st = (Ok plan, st1) ->
     run_multi_agent ac q (Some config) st = (Raise (KeyError "solver"), st1) /\
     llm_calls st1 = llm_calls st ++ [planner_call]).
Proof.
  intros Hsolver. split.
  - unfold planner_off. intros Hoff. rewrite run_stages, Hoff.
    unfold stage_request, py_getitem. rewrite Hsolver. reflexivity.
  - unfold planner_on. intros pc plan st1 Hon Hpc Hsend.
    rewrite run_stages, Hon, Hpc, Hsend.
    unfold stage_request, py_getitem. rewrite Hsolver.
    split; [reflexivity|].
    rewrite send_state in Hsend. injection Hsend as _ <-. reflexivity.
Qed.

(** X10. When the provider fails on the planner's request, the run
    raises that error and the solver is never asked: the planner's
    request is the only one recorded. *)
Theorem planner_failure_aborts ac q config st planner_call e w :
  planner_on config ->
  stage_request config "planner" 128 (lit "Question: " ++ q) = Ok planner_call ->
  chat_completions_create planner_call (world st) = (Raise e, w) ->
  run_multi_agent ac q (Some config) st =
  (Raise e, MkSys w (llm_calls st ++ [planner_call]) (stdout st)).
Proof.
  unfold planner_on. intros Hon Hpc Hchat. rewrite run_stages, Hon, Hpc.
  unfold send. rewrite Hchat. reflexivity.
Qed.

(** X11. A plan that is missing or blank is not shown to the solver: its
    request carries the question alone; any other plan is appended,
    stripped, after a line break and "Plan: ". *)
Theorem blank_plan_is_dropped ac q config st planner_call content w :
  planner_on config ->
  stage_request config "planner" 128 (lit "Question: " ++ q) = Ok planner_call ->
  chat_completions_create planner_call (world st) = (Ok content, w) ->
  let st1 := MkSys w (llm_calls st ++ [planner_call]) (stdout st) in
  let plan := strip (default [] content) in
  let user_content :=
    if blank (default [] content) then lit "Question: " ++ q
    else lit "Question: " ++ q ++ lit (String "010" "Plan: ") ++ plan in
  run_multi_agent ac q (Some config) st =
  match stage_request config "solver" 64 user_content with
  | Ok solver_call => send solver_call st1
  | Raise e => (Raise e, st1)
  end.
Proof.
  unfold planner_on. intros Hon Hpc Hchat. cbv zeta.
  rewrite run_stages, Hon, Hpc. unfold send at 1. rewrite Hchat.
  destruct (blank (default [] content)) eqn:Hblank.
  - rewrite strip_blank by exact Hblank. reflexivity.
  - destruct (strip (default [] content)) as [|c plan] eqn:Hstrip.
    + apply strip_nil_blank in Hstrip. congruence.
    + cbn [spec_solver_input]. rewrite <- app_assoc. reflexivity.
Qed.

(** X12. A configuration without ["use_planner"] runs as one whose
    ["use_planner"] is [False]: the solver alone is asked. *)
Theorem use_planner_defaults_to_off ac q config st :
  config !! "use_planner" = None ->
  run_multi_agent ac q (Some config) st =
    run_multi_agent ac q (Some (<["use_planner" := PyBool false]> config)) st /\
  run_multi_agent ac q (Some config) st =
    match stage_request config "solver" 64 (lit "Question: " ++ q) with
    | Ok solver_call => send solver_call st
    | Raise e => (Raise e, st)
    end.
Proof.
  intros Hkey. rewrite !run_stages, Hkey.
  rewrite lookup_insert_eq. cbn [from_option id py_truthy].
  split; [|reflexivity].
  unfold stage_request, py_getitem.
  rewrite lookup_insert_ne by discriminate. reflexivity.
Qed.
End RunErrorFacts.

(** ** Benchmark: printing, requests, failures *)

Section BenchmarkRunFacts.
Context {char World : Type} {T : PyText char} {host : Host char World}.

Implicit Types (q : list char) (config ac : gmap string (pyval char))
  (st : Sys char World) (call : Call char) (es : list (EvalExample char))
  (out : list (list char)).

Lemma with_stdout_id st : with_stdout st (stdout st) = st.
Proof. destruct st. reflexivity. Qed.

Lemma send_with_stdout call st out :
  send call (with_stdout st out) = ((send call st).1, with_stdout (send call st).2 out).
Proof.
  unfold send, with_stdout. cbn [world llm_calls stdout].
  destruct (chat_completions_create _ _) as [resp w]. reflexivity.
Qed.

(** A run neither reads nor writes the printed lines. *)
Lemma run_with_stdout ac q (cfg : option (gmap string (pyval char))) st out :
  run_multi_agent ac q cfg (with_stdout st out) =
  ((run_multi_agent ac q cfg st).1, with_stdout (run_multi_agent ac q cfg st).2 out).
Proof.
  assert (forall config,
    run_multi_agent ac q (Some config) (with_stdout st out) =
    ((run_multi_agent ac q (Some config) st).1,
     with_stdout (run_multi_agent ac q (Some config) st).2 out)) as Hsome.
  { intros config. rewrite !run_stages.
    destruct (py_truthy _).
    - destruct (stage_request config "planner" _ _) as [pc|e]; [|reflexivity].
      rewrite send_with_stdout.
      destruct (send pc st) as [[plan|e] st1]; cbn [fst snd]; [|reflexivity].
      destruct (stage_request config "solver" _ _) as [sc|e]; [|reflexivity].
      apply send_with_stdout.
    - destruct (stage_request config "solver" _ _) as [sc|e]; [|reflexivity].
      apply send_with_stdout. }
  destruct cfg as [config|]; [apply Hsome|apply (Hsome ac)].
Qed.

Lemma run_keeps_stdout ac q cfg st :
  stdout (run_multi_agent ac q cfg st).2 = stdout st.
Proof.
  pose proof (run_with_stdout ac q cfg st (stdout st)) as Hrun.
  rewrite with_stdout_id in Hrun. rewrite Hrun. reflexivity.
Qed.

Lemma run_calls_bound ac q cfg st :
  exists calls,
    llm_calls (run_multi_agent ac q cfg st).2 = llm_calls st ++ calls /\
    (length calls <= 2)%nat.
Proof.
  assert (forall config, exists calls,
    llm_calls (run_multi_agent ac q (Some config) st).2 = llm_calls st ++ calls /\
    (length calls <= 2)%nat) as Hsome.
  { intros config. rewrite run_stages.
    destruct (py_truthy _).
    - destruct (stage_request config "planner" _ _) as [pc|e].
      + rewrite (send_state pc st).
        destruct (send pc st).1 as [plan|e].
        * destruct (stage_request config "solver" _ _) as [sc|e].
          -- rewrite send_state. exists [pc; sc]. cbn. rewrite <- app_assoc.
             split; [reflexivity|lia].
          -- exists [pc]. cbn. split; [reflexivity|lia].
        * exists [pc]. cbn. split; [reflexivity|lia].
      + exists []. cbn. rewrite app_nil_r. split; [reflexivity|lia].
    - destruct (stage_request config "solver" _ _) as [sc|e].
      + rewrite send_state. exists [sc]. cbn. split; [reflexivity|lia].
      + exists []. cbn. rewrite app_nil_r. split; [reflexivity|lia]. }
  destruct cfg as [config|]; [apply Hsome|apply (Hsome ac)].
Qed.

(** One step of [answer_all]. *)
Lemma answer_all_cons ac verbose ex es st :
  answer_all ac verbose (ex :: es) st =
  (let '(r, st1) := run_multi_agent ac (question ex) None st in
   match r with
   | Raise e => (Raise e, st1)
   | Ok ans =>
       let st2 :=
         if verbose
         then with_stdout st1 (stdout st1 ++ [lit "Q: " ++ question ex;
                                              lit "A: " ++ ans; []])
         else st1 in
       let '(r', st3) := answer_all ac verbose es st2 in
       match r' with
       | Raise e => (Raise e, st3)
       | Ok rest => (Ok (ans :: rest), st3)
       end
   end).
Proof.
  cbn [answer_all]. unfold mbind, M_bind, bind, mret, M_ret, ret.
  destruct (run_multi_agent ac (question ex) None st) as [[ans|e] st1];
    [|reflexivity].
  destruct verbose; [|reflexivity].
  unfold print, with_stdout. cbn [world llm_calls stdout].
  rewrite <- !app_assoc. reflexivity.
Qed.

(** A quiet pass changes no printed line. *)
Lemma answer_all_quiet ac es st :
  stdout (answer_all ac false es st).2 = stdout st.
Proof.
  revert st. induction es as [|ex es IH]; intros st; [reflexivity|].
  rewrite answer_all_cons.
  pose proof (run_keeps_stdout ac (question ex) None st) as Hrun.
  destruct (run_multi_agent ac (question ex) None st) as [[ans|e] st1];
    cbn [snd] in Hrun; [|exact Hrun].
  specialize (IH st1). cbv beta zeta iota.
  destruct (answer_all ac false es st1) as [[rest|e] st3]; cbn [snd] in *; congruence.
Qed.

(** A verbose pass is the quiet pass with more printed lines. *)
Lemma answer_all_verbose ac es st out :
  exists out',
    answer_all ac true es (with_stdout st out) =
    ((answer_all ac false es st).1, with_stdout (answer_all ac false es st).2 out').
Proof.
  revert st out. induction es as [|ex es IH]; intros st out.
  - exists out. reflexivity.
  - rewrite !answer_all_cons, run_with_stdout.
    destruct (run_multi_agent ac (question ex) None st) as [[ans|e] st1];
      cbn [fst snd]; [|exists out; reflexivity].
    destruct (IH st1 (out ++ [lit "Q: " ++ question ex; lit "A: " ++ ans; []]))
      as (out' & Hverbose).
    exists out'. cbv beta zeta iota.
    change (with_stdout (with_stdout st1 out)
              (stdout (with_stdout st1 out)
               ++ [lit "Q: " ++ question ex; lit "A: " ++ ans; []]))
      with (with_stdout st1 (out ++ [lit "Q: " ++ question ex; lit "A: " ++ ans; []])).
    rewrite Hverbose.
    destruct (answer_all ac false es st1) as [[rest|e] st3]; reflexivity.
Qed.

Lemma verbose_quiet_stdout ac es st :
  stdout (run_benchmark ac es false st).2 = stdout st.
Proof.
  rewrite run_benchmark_unfold.
  pose proof (answer_all_quiet ac es st) as Hquiet.
  destruct (answer_all ac false es st) as [[answers|e] st1]; cbn [snd] in *;
    [|exact Hquiet].
  cbv zeta.
  destruct (match es with [] => Ok 0%float | _ :: _ => int_truediv _ _ end)
    as [rate|e]; [|exact Hquiet].
  destruct (float_of_int _) as [total|e]; exact Hquiet.
Qed.

(** X13. [verbose] changes what is printed and nothing else: the result,
    the state of the world and the requests sent are those of the quiet
    pass, which prints nothing. *)
Theorem verbose_only_prints ac es st :
  (run_benchmark ac es true st).1 = (run_benchmark ac es false st).1 /\
  world (run_benchmark ac es true st).2 = world (run_benchmark ac es false st).2 /\
  llm_calls (run_benchmark ac es true st).2 = llm_calls (run_benchmark ac es false st).2 /\
  stdout (run_benchmark ac es false st).2 = stdout st.
Proof.
  rewrite !run_benchmark_unfold.
  destruct (answer_all_verbose ac es st (stdout st)) as (out' & Hverbose).
  rewrite with_stdout_id in Hverbose. rewrite Hverbose.
  pose proof (answer_all_quiet ac es st) as Hquiet.
  destruct (answer_all ac false es st) as [[answers|e] st1]; cbn [fst snd] in *;
    [|repeat split; assumption].
  cbv zeta.
  destruct (match es with [] => Ok 0%float | _ :: _ => int_truediv _ _ end)
    as [rate|e]; [|repeat split; assumption].
  destruct (float_of_int _) as [total|e]; repeat split; assumption.
Qed.

Lemma answer_all_transcript ac es st answers st' :
  answer_all ac true es st = (Ok answers, st') ->
  stdout st' = stdout st ++ transcript es answers.
Proof.
  revert st answers st'. induction es as [|ex es IH]; intros st answers st'.
  - cbn. intros [= <- <-]. cbn. rewrite app_nil_r. reflexivity.
  - rewrite answer_all_cons.
    pose proof (run_keeps_stdout ac (question ex) None st) as Hrun.
    destruct (run_multi_agent ac (question ex) None st) as [[ans|e] st1];
      [|discriminate].
    cbn [snd] in Hrun. cbv beta zeta iota.
    destruct (answer_all ac true es (with_stdout st1 _)) as [[rest|e] st3] eqn:Hrest;
      [|discriminate].
    intros [= <- <-]. rewrite (IH _ _ _ Hrest).
    cbn [with_stdout stdout transcript]. rewrite Hrun, <- app_assoc. reflexivity.
Qed.

Lemma transcript_length es (answers : list (list char)) :
  length answers = length es ->
  length (transcript es answers) = (3 * length es)%nat.
Proof.
  revert answers. induction es as [|ex es IH]; intros [|ans answers];
    cbn [transcript length app]; try discriminate; [reflexivity|].
  intros [= Hlen]. rewrite (IH _ Hlen). lia.
Qed.

(** X14. A verbose pass that returns has printed, after what was there,
    three lines for each example in order (the question, the answer, an
    empty line) and then the tally of correct answers over the number of
    examples. *)
Theorem verbose_prints_transcript_and_tally ac es st m st' :
  run_benchmark ac es true st = (Ok m, st') ->
  exists answers st1,
    answer_all ac true es st = (Ok answers, st1) /\
    stdout st' = stdout st ++ transcript es answers
                 ++ [tally_line (correct_count answers es) (Z.of_nat (length es))] /\
    length (transcript es answers) = (3 * length es)%nat.
Proof.
  rewrite run_benchmark_unfold.
  destruct (answer_all ac true es st) as [[answers|e] st1] eqn:Hans; [|discriminate].
  cbv zeta. intros Hrun. exists answers, st1. split; [reflexivity|].
  split; [|eapply transcript_length, answer_all_length, Hans].
  destruct (match es with [] => Ok 0%float | _ :: _ => int_truediv _ _ end)
    as [rate|e]; [|discriminate].
  destruct (float_of_int _) as [total|e]; [|discriminate].
  injection Hrun as _ <-. cbn [stdout].
  rewrite (answer_all_transcript _ _ _ _ _ Hans), <- app_assoc. reflexivity.
Qed.

Lemma answer_all_app ac verbose done rest st :
  answer_all ac verbose (done ++ rest) st =
  (let '(r, st1) := answer_all ac verbose done st in
   match r with
   | Raise e => (Raise e, st1)
   | Ok answers =>
       let '(r', st2) := answer_all ac verbose rest st1 in
       match r' with
       | Raise e => (Raise e, st2)
       | Ok answers' => (Ok (answers ++ answers'), st2)
       end
   end).
Proof.
  revert st. induction done as [|ex done IH]; intros st.
  - cbn [app]. cbn [answer_all]. unfold mret, M_ret, ret.
    destruct (answer_all ac verbose rest st) as [[answers'|e] st2]; reflexivity.
  - rewrite <- app_comm_cons, !answer_all_cons.
    destruct (run_multi_agent ac (question ex) None st) as [[ans|e] st1];
      [|reflexivity].
    cbv zeta. rewrite IH.
    destruct (answer_all ac verbose done _) as [[answers|e] st2]; [|reflexivity].
    destruct (answer_all ac verbose rest st2) as [[answers'|e] st3]; reflexivity.
Qed.

(** X15. No partial tally: when the pipeline raises on an example, the
    benchmark raises that error in the state the failure left, and the
    examples after it are never run. *)
Theorem benchmark_stops_at_first_failure ac verbose done ex rest st answers st1 e st2 :
  answer_all ac verbose done st = (Ok answers, st1) ->
  run_multi_agent ac (question ex) None st1 = (Raise e, st2) ->
  run_benchmark ac (done ++ ex :: rest) verbose st = (Raise e, st2).
Proof.
  intros Hdone Hfail.
  rewrite run_benchmark_unfold, answer_all_app, Hdone, answer_all_cons, Hfail.
  reflexivity.
Qed.

Lemma answer_all_calls_bound ac verbose es st :
  exists calls,
    llm_calls (answer_all ac verbose es st).2 = llm_calls st ++ calls /\
    (length calls <= 2 * length es)%nat.
Proof.
  revert st. induction es as [|ex es IH]; intros st.
  - exists []. cbn. rewrite app_nil_r. split; [reflexivity|lia].
  - rewrite answer_all_cons.
    destruct (run_calls_bound ac (question ex) None st) as (calls & Hcalls & Hlen).
    destruct (run_multi_agent ac (question ex) None st) as [[ans|e] st1];
      cbn [snd] in Hcalls.
    + cbv zeta.
      destruct (IH (if verbose
                    then with_stdout st1 (stdout st1 ++ [lit "Q: " ++ question ex;
                                                         lit "A: " ++ ans; []])
                    else st1)) as (calls' & Hcalls' & Hlen').
      exists (calls ++ calls').
      destruct (answer_all ac verbose es _) as [[rest'|e] st3]; cbn [snd] in *;
        (split; [rewrite Hcalls'; destruct verbose; cbn [with_stdout llm_calls];
                 rewrite Hcalls, app_assoc; reflexivity
                |rewrite length_app; cbn [length]; lia]).
    + exists calls. split; [exact Hcalls|cbn [length]; lia].
Qed.

(** X16. A benchmark pass sends at most two requests for each example,
    whatever the configuration and however it ends, and keeps the
    requests recorded before it. *)
Theorem benchmark_request_budget ac es verbose st :
  exists calls,
    llm_calls (run_benchmark ac es verbose st).2 = llm_calls st ++ calls /\
    (length calls <= 2 * length es)%nat.
Proof.
  destruct (answer_all_calls_bound ac verbose es st) as (calls & Hcalls & Hlen).
  exists calls. split; [|exact Hlen].
  rewrite run_benchmark_unfold.
  destruct (answer_all ac verbose es st) as [[answers|e] st1]; cbn [snd] in Hcalls;
    [|exact Hcalls].
  cbv zeta.
  destruct (match es with [] => Ok 0%float | _ :: _ => int_truediv _ _ end)
    as [rate|e]; [|exact Hcalls].
  destruct (float_of_int _) as [total|e]; destruct verbose; exact Hcalls.
Qed.
End BenchmarkRunFacts.

(** ** Benchmark on the file's configuration and evaluation set *)

Section ReferenceFacts.
Context {char World : Type} {T : PyText char} {host : Host char World}.

Implicit Types (q : list char) (ac : gmap string (pyval char))
  (st : Sys char World) (es : list (EvalExample char)).

Lemma run_reference_two_requests q st :
  provider_answers ->
  exists ans st' planner_call solver_call,
    run_multi_agent AGENT_CONFIG q None st = (Ok ans, st') /\
    llm_calls st' = llm_calls st ++ [planner_call; solver_call].
Proof.
  intros Hp.
  assert (run_multi_agent AGENT_CONFIG q None st = spec_run q reference_config st)
    as ->.
  { rewrite <- (run_follows_spec AGENT_CONFIG). reflexivity. }
  unfold spec_run, spec_plan, complete, mbind, M_bind, bind.
  cbn [use_planner reference_config]. rewrite call_llm_send, send_state.
  set (pc := MkCall _ _ _ _).
  destruct (send_answers pc st Hp) as (plan & st1 & Hsend). rewrite Hsend. cbn [fst].
  rewrite call_llm_send, send_state.
  set (sc := MkCall _ _ _ _).
  destruct (send_answers sc (MkSys (chat_completions_create pc (world st)).2
                                   (llm_calls st ++ [pc]) (stdout st)) Hp)
    as (ans & st2 & Hsend2). rewrite Hsend2. cbn [fst].
  eexists ans, _, pc, sc. split; [reflexivity|].
  cbn [llm_calls]. rewrite <- app_assoc. reflexivity.
Qed.

Lemma answer_all_reference_requests verbose es st :
  provider_answers ->
  exists calls,
    llm_calls (answer_all AGENT_CONFIG verbose es st).2 = llm_calls st ++ calls /\
    length calls = (2 * length es)%nat.
Proof.
  intros Hp. revert st. induction es as [|ex es IH]; intros st.
  - exists []. cbn. rewrite app_nil_r. split; reflexivity.
  - rewrite answer_all_cons.
    destruct (run_reference_two_requests (question ex) st Hp)
      as (ans & st1 & pc & sc & -> & Hcalls).
    cbv beta zeta iota.
    destruct (IH (if verbose
                  then with_stdout st1 (stdout st1 ++ [lit "Q: " ++ question ex;
                                                       lit "A: " ++ ans; []])
                  else st1)) as (calls & Hrest & Hlen).
    exists ([pc; sc] ++ calls).
    destruct (answer_all AGENT_CONFIG verbose es _) as [[rest|e] st3];
      cbn [snd] in *;
      (split; [rewrite Hrest; destruct verbose; cbn [with_stdout llm_calls];
               rewrite Hcalls, <- app_assoc; reflexivity
              |rewrite length_app, Hlen; cbn [length]; lia]).
Qed.

(** X17. With the configuration of the file, whose planner is on, and a
    provider that answers, a benchmark pass sends exactly two requests
    for each example: fourteen on the evaluation set of the file. *)
Theorem reference_benchmark_requests verbose st :
  provider_answers ->
  (forall es, exists calls,
     llm_calls (run_benchmark AGENT_CONFIG es verbose st).2 = llm_calls st ++ calls /\
     length calls = (2 * length es)%nat) /\
  length (llm_calls (run_benchmark AGENT_CONFIG EVAL_SET verbose st).2)
    = (length (llm_calls st) + 14)%nat.
Proof.
  intros Hp.
  assert (forall es, exists calls,
     llm_calls (run_benchmark AGENT_CONFIG es verbose st).2 = llm_calls st ++ calls /\
     length calls = (2 * length es)%nat) as Hany.
  { intros es.
    destruct (answer_all_reference_requests verbose es st Hp) as (calls & Hcalls & Hlen).
    exists calls. split; [|exact Hlen].
    rewrite run_benchmark_unfold.
    destruct (answer_all AGENT_CONFIG verbose es st) as [[answers|e] st1];
      cbn [snd] in Hcalls; [|exact Hcalls].
    cbv zeta.
    destruct (match es with [] => Ok 0%float | _ :: _ => int_truediv _ _ end)
      as [rate|e]; [|exact Hcalls].
    destruct (float_of_int _) as [total|e]; destruct verbose; exact Hcalls. }
  split; [exact Hany|].
  destruct (Hany EVAL_SET) as (calls & -> & Hlen).
  rewrite length_app, Hlen. reflexivity.
Qed.

Lemma sevenths_ordered (k k' : Z) :
  0 <= k <= 7 -> 0 <= k' <= 7 ->
  (k < k' -> (truediv_Z k 7 <? truediv_Z k' 7)%float = true) /\
  (k = 0 <-> truediv_Z k 7 = 0%float) /\
  (k = 7 <-> truediv_Z k 7 = 1%float).
Proof.
  intros Hk Hk'.
  assert (k = 0 \/ k = 1 \/ k = 2 \/ k = 3 \/ k = 4 \/ k = 5 \/ k = 6 \/ k = 7)
    as Hcases by lia.
  assert (k' = 0 \/ k' = 1 \/ k' = 2 \/ k' = 3 \/ k' = 4 \/ k' = 5 \/ k' = 6 \/ k' = 7)
    as Hcases' by lia.
  split; [|split].
  - intros Hlt.
    repeat (destruct Hcases as [->|Hcases]); [..|subst k];
      repeat (destruct Hcases' as [->|Hcases']); try subst k';
      first [lia | vm_compute; reflexivity].
  - split.
    + intros ->. vm_compute. reflexivity.
    + intros Hx. apply (f_equal (fun x => PrimFloat.eqb x 0)) in Hx.
      repeat (destruct Hcases as [->|Hcases]); [..|subst k];
        first [reflexivity | vm_compute in Hx; discriminate Hx].
  - split.
    + intros ->. vm_compute. reflexivity.
    + intros Hx. apply (f_equal (fun x => PrimFloat.eqb x 1)) in Hx.
      repeat (destruct Hcases as [->|Hcases]); [..|subst k];
        first [reflexivity | vm_compute in Hx; discriminate Hx].
Qed.

(** The rate a pass on the evaluation set of the file returns. *)
Lemma reference_rate ac verbose st m st' :
  run_benchmark ac EVAL_SET verbose st = (Ok m, st') ->
  exists answers st1,
    answer_all ac verbose EVAL_SET st = (Ok answers, st1) /\
    0 <= correct_count answers EVAL_SET <= 7 /\
    m !! "success_rate" = Some (PyFloat (truediv_Z (correct_count answers EVAL_SET) 7)).
Proof.
  rewrite run_benchmark_unfold.
  destruct (answer_all ac verbose EVAL_SET st) as [[answers|e] st1]; [|discriminate].
  cbv zeta. intros Hrun. exists answers, st1. split; [reflexivity|].
  split; [apply (correct_count_bounds answers EVAL_SET)|].
  unfold int_truediv, float_of_int in Hrun. cbn [EVAL_SET] in Hrun.
  change (Z.of_nat (length (EVAL_SET (char := char)))) with 7 in Hrun.
  change (7 =? 0) with false in Hrun. cbv iota in Hrun.
  destruct (is_infinity (truediv_Z _ 7)); [discriminate|].
  destruct (is_infinity (float_of_Z 7)); [discriminate|].
  injection Hrun as <- _. reflexivity.
Qed.

(** X18. On the evaluation set of the file the success rate orders two
    passes as their numbers of matching answers do: strictly more matches
    give a strictly higher rate; the rate is 0.0 exactly when no answer
    matches and 1.0 exactly when all seven do. *)
Theorem success_rate_follows_matches ac ac' verbose verbose' st st0 m m' st' st0' :
  run_benchmark ac EVAL_SET verbose st = (Ok m, st') ->
  run_benchmark ac' EVAL_SET verbose' st0 = (Ok m', st0') ->
  exists answers answers' st1 st1' x x',
    answer_all ac verbose EVAL_SET st = (Ok answers, st1) /\
    answer_all ac' verbose' EVAL_SET st0 = (Ok answers', st1') /\
    m !! "success_rate" = Some (PyFloat x) /\
    m' !! "success_rate" = Some (PyFloat x') /\
    (correct_count answers EVAL_SET < correct_count answers' EVAL_SET ->
     (x <? x')%float = true) /\
    (correct_count answers EVAL_SET = 0 <-> x = 0%float) /\
    (correct_count answers EVAL_SET = 7 <-> x = 1%float).
Proof.
  intros Hrun Hrun'.
  destruct (reference_rate _ _ _ _ _ Hrun) as (answers & st1 & Hans & Hk & Hrate).
  destruct (reference_rate _ _ _ _ _ Hrun') as (answers' & st1' & Hans' & Hk' & Hrate').
  exists answers, answers', st1, st1'. do 2 eexists.
  split; [exact Hans|]. split; [exact Hans'|].
  split; [exact Hrate|]. split; [exact Hrate'|].
  apply sevenths_ordered; assumption.
Qed.
End ReferenceFacts.

(** ** Evaluator: what a candidate can get wrong *)

Section EvaluateMoreFacts.
Context {char World : Type} {T : PyText char} {host : Host char World}.

Implicit Types (path : list char) (st : Sys char World)
  (module : Module char World) (metrics : gmap string (pyval char)).

(** X19. An error raised inside the candidate's [run_benchmark] (a
    provider failure, say) is the error of [evaluate]: no report, in the
    state the failure left. *)
Theorem evaluate_propagates_benchmark_error path st module st1 f e st2 :
  _load_program path st = (Ok module, st1) ->
  mod_attrs module !! "run_benchmark" = Some (AttrCallable f) ->
  f st1 = (Raise e, st2) ->
  evaluate path st = (Raise e, st2).
Proof.
  intros Hload Hattr Hrun.
  rewrite (evaluate_loaded _ _ _ _ Hload), Hattr. cbn [py_call]. rewrite Hrun.
  reflexivity.
Qed.

(** X20. A [run_benchmark] attribute that cannot be called makes
    [evaluate] raise [TypeError]; one that returns something else than a
    dictionary makes it raise the [AttributeError] of the missing [get]. *)
Theorem evaluate_rejects_malformed_benchmark path st module st1 :
  _load_program path st = (Ok module, st1) ->
  (forall v, mod_attrs module !! "run_benchmark" = Some (AttrValue v) ->
     evaluate path st = (Raise TypeError, st1)) /\
  (forall f v st2,
     mod_attrs module !! "run_benchmark" = Some (AttrCallable f) ->
     f st1 = (Ok v, st2) ->
     (forall d, v <> PyDict d) ->
     evaluate path st =
     (Raise (AttributeError
               (lit ("'" +:+ py_type_name v +:+ "' object has no attribute 'get'"))),
      st2)).
Proof.
  intros Hload. split.
  - intros v Hattr. rewrite (evaluate_loaded _ _ _ _ Hload), Hattr. reflexivity.
  - intros f v st2 Hattr Hrun Hv.
    rewrite (evaluate_loaded _ _ _ _ Hload), Hattr. cbn [py_call]. rewrite Hrun.
    destruct v; try reflexivity. destruct (Hv d eq_refl).
Qed.

(** X21. Every report [evaluate] returns holds one number under exactly
    the three keys "score", "combined_score" and "success_rate"; whatever
    else the candidate's metrics held, "num_examples" included, is not
    passed on. *)
Theorem evaluate_report_shape path st report st' :
  evaluate path st = (Ok report, st') ->
  exists x,
    report = {[ "score" := x; "combined_score" := x; "success_rate" := x ]} /\
    report_all report x /\
    dom report = ({[ "score"; "combined_score"; "success_rate" ]} : gset string) /\
    report !! "num_examples" = None.
Proof.
  destruct (_load_program path st) as [[module|e] st1] eqn:Hload.
  - rewrite (evaluate_loaded _ _ _ _ Hload).
    destruct (mod_attrs module !! "run_benchmark") as [a|]; [|discriminate].
    destruct (py_call a st1) as [[v|e] st2]; [|discriminate].
    destruct (py_get v _ _) as [w|e]; [|discriminate].
    destruct (py_float w) as [x|e]; [|discriminate].
    intros [= <- _]. exists x. split; [reflexivity|].
    split; [apply report_all_same|]. split; [|reflexivity].
    rewrite !dom_insert_L, dom_singleton_L. set_solver.
  - rewrite (evaluate_load_error _ _ _ _ Hload). discriminate.
Qed.

(** X22. For a candidate made of a configuration and the evaluation set
    of the file, [evaluate] is the quiet benchmark: it returns the
    benchmark's success rate, one of 0/7 .. 7/7 and so within 0 and 1, in
    the three fields, raises what the benchmark raises, and prints
    nothing. *)
Theorem evaluate_candidate_is_quiet_benchmark path st config st1 :
  _load_program path st = (Ok (candidate_module config EVAL_SET), st1) ->
  (forall m st2,
     run_benchmark config EVAL_SET false st1 = (Ok m, st2) ->
     exists k x,
       0 <= k <= 7 /\ x = truediv_Z k 7 /\
       m !! "success_rate" = Some (PyFloat x) /\
       evaluate path st =
         (Ok {[ "score" := x; "combined_score" := x; "success_rate" := x ]}, st2) /\
       (0 <=? x)%float = true /\ (x <=? 1)%float = true) /\
  (forall e st2,
     run_benchmark config EVAL_SET false st1 = (Raise e, st2) ->
     evaluate path st = (Raise e, st2)) /\
  stdout (evaluate path st).2 = stdout st1.
Proof.
  intros Hload.
  assert (evaluate path st =
          (let '(r, st2) := run_benchmark config EVAL_SET false st1 in
           match r with
           | Raise e => (Raise e, st2)
           | Ok m =>
               match py_float (default (PyFloat 0) (m !! "success_rate")) with
               | Raise e => (Raise e, st2)
               | Ok x => (Ok ({[ "score" := x; "combined_score" := x;
                                 "success_rate" := x ]} : gmap string float), st2)
               end
           end)) as Heval.
  { rewrite (evaluate_loaded _ _ _ _ Hload). cbn [candidate_module mod_attrs].
    rewrite lookup_singleton_eq. cbn [py_call].
    unfold fmap, M_fmap, bind, ret.
    destruct (run_benchmark config EVAL_SET false st1) as [[m|e] st2]; reflexivity. }
  split; [|split].
  - intros m st2 Hrun.
    destruct (reference_rate _ _ _ _ _ Hrun) as (answers & st1' & _ & Hk & Hrate).
    exists (correct_count answers EVAL_SET), (truediv_Z (correct_count answers EVAL_SET) 7).
    split; [exact Hk|]. split; [reflexivity|]. split; [exact Hrate|].
    split; [|apply sevenths_in_unit_interval, Hk].
    rewrite Heval, Hrun, Hrate. reflexivity.
  - intros e st2 Hrun. rewrite Heval, Hrun. reflexivity.
  - rewrite Heval.
    pose proof (verbose_quiet_stdout config EVAL_SET st1) as Hquiet.
    destruct (run_benchmark config EVAL_SET false st1) as [[m|e] st2];
      cbn [snd] in Hquiet; [|exact Hquiet].
    destruct (py_float _); exact Hquiet.
Qed.

(** X23. Executing [best_program.py] without an ["OPENAI_API_KEY"], or
    with an empty one, raises [RuntimeError] before anything is defined,
    and [evaluate] raises it too; with a key, the module exposes
    [run_benchmark] and [evaluate] goes on to the benchmark. *)
Theorem missing_api_key_fails_the_load path st spec st1 module st2
    (environ : gmap string (list char)) :
  spec_from_file_location (lit "candidate_program") path st = (Ok (Some spec), st1) ->
  spec_has_loader spec = true ->
  module_from_spec spec st1 = (Ok module, st2) ->
  exec_module spec module st2 = exec_best_program environ st2 ->
  ((environ !! "OPENAI_API_KEY" = None \/ environ !! "OPENAI_API_KEY" = Some []) ->
   evaluate path st = (Raise (OtherError "RuntimeError" missing_key_message), st2)) /\
  (forall key, environ !! "OPENAI_API_KEY" = Some key -> key <> [] ->
     _load_program path st = (Ok (candidate_module AGENT_CONFIG EVAL_SET), st2)).
Proof.
  intros Hspec Hloader Hmod Hexec. split.
  - intros Hkey. eapply evaluate_load_error, load_not_executed; try eassumption.
    rewrite Hexec. unfold exec_best_program, mbind, M_bind, bind, try, _api_key.
    destruct Hkey as [->| ->]; reflexivity.
  - intros key Hkey Hne.
    unfold _load_program, mbind, M_bind, bind.
    rewrite Hspec, Hloader, Hmod, Hexec.
    unfold exec_best_program, mbind, M_bind, bind, try, _api_key.
    rewrite Hkey, bool_decide_eq_false_2 by exact Hne. reflexivity.
Qed.
End EvaluateMoreFacts.

(** ** The driver *)

Section RunEvolveFacts.
Context {char World : Type} {T : PyText char} {driver : Driver char World}.

Implicit Types (environ : gmap string (list char)) (st : Sys char World).

(** [main] once the key is there. *)
Lemma main_with_key environ st key :
  environ !! "OPENAI_API_KEY" = Some key -> key <> [] ->
  main environ st =
  (let '(r, st1) := run_evolution (lit "multi_agent_program.py")
                      (lit "multi_agent_evaluator.py") (evolve_config key) st in
   match r with
   | Raise e => (Raise e, st1)
   | Ok result =>
       let st2 := with_stdout st1 (stdout st1 ++ finished_lines result) in
       match default PyNone (result !! "best_code") with
       | PyStr code =>
           if bool_decide (strip code = [])
           then (Ok tt, with_stdout st2 (stdout st2 ++ [no_best_code_note]))
           else
             let '(w, st3) := write_text best_path code st2 in
             match w with
             | Raise e => (Raise e, st3)
             | Ok _ =>
                 (Ok tt, with_stdout st3
                           (stdout st3 ++ [lit "Saved best program code to " ++ best_path]))
             end
       | _ => (Ok tt, with_stdout st2 (stdout st2 ++ [no_best_code_note]))
       end
   end).
Proof.
  intros Hkey Hne. unfold main. rewrite Hkey, bool_decide_eq_false_2 by exact Hne.
  unfold mbind, M_bind, bind. cbn [llm_models max_iterations cascade_evaluation other_settings].
  fold (evolve_config key).
  destruct (run_evolution _ _ _ st) as [[result|e] st1]; [|reflexivity].
  unfold print at 1 2. cbn [world llm_calls stdout]. cbv zeta.
  assert (forall (st0 : Sys char World) (line : list char),
            print line st0 = (Ok tt, with_stdout st0 (stdout st0 ++ [line])))
    as Hprint by reflexivity.
  unfold finished_lines.
  replace (MkSys (world st1) (llm_calls st1) _)
    with (with_stdout st1 (stdout st1 ++
            [lit (String "010" "Evolution finished.");
             lit "Best score found: " ++
             py_str (default PyNone (result !! "best_score"))]))
    by (unfold with_stdout; rewrite <- app_assoc; reflexivity).
  destruct (default PyNone (result !! "best_code")) as [| | | |text|];
    try apply Hprint.
  destruct (bool_decide (strip text = [])); [apply Hprint|].
  destruct (write_text best_path text _) as [[[]|e] st3]; [apply Hprint|reflexivity].
Qed.

(** X24. Without an ["OPENAI_API_KEY"], or with an empty one, [main]
    raises [RuntimeError] and does nothing else.  With a key, OpenEvolve
    is run on "multi_agent_program.py" and "multi_agent_evaluator.py" with
    the model gpt-4o-mini under that key, 8 iterations and cascade
    evaluation off; when it raises, [main] raises the same error and
    neither prints nor writes. *)
Theorem main_needs_key_and_runs_evolution environ st :
  ((environ !! "OPENAI_API_KEY" = None \/ environ !! "OPENAI_API_KEY" = Some []) ->
   main environ st =
   (Raise (OtherError "RuntimeError"
             (lit "OPENAI_API_KEY not found in environment variables.")), st)) /\
  (forall key e st1,
     environ !! "OPENAI_API_KEY" = Some key -> key <> [] ->
     run_evolution (lit "multi_agent_program.py") (lit "multi_agent_evaluator.py")
       (MkEvolveConfig [MkModel (lit "gpt-4o-mini") key] 8 false
          (other_settings new_config)) st = (Raise e, st1) ->
     main environ st = (Raise e, st1)).
Proof.
  split.
  - unfold main. intros [->| ->]; reflexivity.
  - intros key e st1 Hkey Hne Hrun.
    rewrite (main_with_key _ _ _ Hkey Hne). unfold evolve_config. rewrite Hrun.
    reflexivity.
Qed.

(** X25. [main] writes [best_program.py] exactly when the result's
    [best_code] is text that is not blank, and then writes that text as it
    is; when [best_code] is missing, is no text or is blank, nothing is
    written and the note is printed. *)
Theorem main_saves_only_nonblank_code environ st key result st1 :
  environ !! "OPENAI_API_KEY" = Some key -> key <> [] ->
  run_evolution (lit "multi_agent_program.py") (lit "multi_agent_evaluator.py")
    (evolve_config key) st = (Ok result, st1) ->
  let st2 := with_stdout st1 (stdout st1 ++ finished_lines result) in
  (forall code,
     result !! "best_code" = Some (PyStr code) -> strip code <> [] ->
     main environ st =
     (let '(w, st3) := write_text best_path code st2 in
      match w with
      | Raise e => (Raise e, st3)
      | Ok _ =>
          (Ok tt, with_stdout st3
                    (stdout st3 ++ [lit "Saved best program code to " ++ best_path]))
      end)) /\
  ((forall code, result !! "best_code" = Some (PyStr code) -> strip code = []) ->
   main environ st = (Ok tt, with_stdout st2 (stdout st2 ++ [no_best_code_note]))).
Proof.
  intros Hkey Hne Hrun. cbv zeta.
  rewrite (main_with_key _ _ _ Hkey Hne), Hrun. cbv zeta. split.
  - intros code -> Hcode. cbn [from_option id].
    rewrite bool_decide_eq_false_2 by exact Hcode. reflexivity.
  - intros Hblank.
    destruct (result !! "best_code") as [[| | | |text|]|] eqn:Hbest;
      cbn [from_option id]; try reflexivity.
    rewrite bool_decide_eq_true_2 by (apply Hblank; reflexivity). reflexivity.
Qed.
End RunEvolveFacts.

(** ** The further properties on the example data *)

Lemma answers_are_stripped_witness :
  (_call_llm (host := demo_host) (PyStr (lit "Answer.")) (lit "Question: Where?") 8 fresh).1
    = Ok (lit "Paris") /\
  (forall c, head (lit "Paris" : list ascii) = Some c -> isspace c = false) /\
  (forall c, last (lit "Paris" : list ascii) = Some c -> isspace c = false).
Proof.
  split; [reflexivity|].
  eapply (proj1 (answers_are_stripped (host := demo_host) AGENT_CONFIG
                   (lit "Where?") AGENT_CONFIG fresh)
            (PyStr (lit "Answer.")) (lit "Question: Where?") 8).
  vm_compute. reflexivity.
Defined.

Lemma planner_entry_errors_witness :
  planner_on ({[ "use_planner" := PyBool true ]} : gmap string (pyval ascii)) /\
  run_multi_agent (host := demo_host) AGENT_CONFIG (lit "Where?")
    (Some {[ "use_planner" := PyBool true ]}) fresh
  = (Raise (KeyError "planner"), fresh).
Proof.
  split; [reflexivity|].
  apply (planner_entry_errors (host := demo_host) AGENT_CONFIG (lit "Where?")
           {[ "use_planner" := PyBool true ]} fresh); reflexivity.
Defined.

Lemma solver_entry_missing_witness :
  run_multi_agent (host := demo_host) AGENT_CONFIG (lit "Where?")
    (Some {[ "use_planner" := PyBool false ]}) fresh
  = (Raise (KeyError "solver"), fresh).
Proof.
  apply (solver_entry_missing (host := demo_host) AGENT_CONFIG (lit "Where?")
           {[ "use_planner" := PyBool false ]} fresh); reflexivity.
Defined.

Lemma planner_failure_aborts_witness :
  let planner_call :=
    MkCall (lit "gpt-4o-mini") (PyStr (lit "Plan.")) (lit "Question: Where?") 128 in
  run_multi_agent (host := failing_host) AGENT_CONFIG (lit "Where?")
    (Some config_without_budgets) fresh
  = (Raise (OtherError "APIConnectionError" (lit "Connection error.")),
     MkSys tt [planner_call] []).
Proof.
  cbv zeta.
  apply (planner_failure_aborts (host := failing_host) AGENT_CONFIG (lit "Where?")
           config_without_budgets fresh); reflexivity.
Defined.

Lemma blank_plan_is_dropped_witness :
  map call_user
    (llm_calls (run_multi_agent (host := blank_host) AGENT_CONFIG (lit "Where?")
                  (Some config_without_budgets) fresh).2)
  = [lit "Question: Where?"; lit "Question: Where?"].
Proof.
  rewrite (blank_plan_is_dropped (host := blank_host) AGENT_CONFIG (lit "Where?")
             config_without_budgets fresh
             (MkCall (lit "gpt-4o-mini") (PyStr (lit "Plan.")) (lit "Question: Where?") 128)
             (Some (lit "  ")) tt eq_refl eq_refl eq_refl).
  vm_compute. reflexivity.
Defined.

Lemma use_planner_defaults_to_off_witness :
  let config : gmap string (pyval ascii) :=
    {[ "solver" := PyDict {[ "system_prompt" := PyStr (lit "Answer.") ]} ]} in
  config !! "use_planner" = None /\
  run_multi_agent (host := demo_host) AGENT_CONFIG (lit "Where?") (Some config) fresh
  = run_multi_agent (host := demo_host) AGENT_CONFIG (lit "Where?")
      (Some (<["use_planner" := PyBool false]> config)) fresh.
Proof.
  cbv zeta. split; [reflexivity|].
  apply (use_planner_defaults_to_off (host := demo_host) AGENT_CONFIG (lit "Where?")).
  reflexivity.
Defined.

Lemma verbose_prints_transcript_and_tally_witness :
  let run := run_benchmark (host := demo_host) AGENT_CONFIG EVAL_SET true fresh in
  run.1 = Ok paris_metrics /\
  exists answers st1,
    answer_all (host := demo_host) AGENT_CONFIG true EVAL_SET fresh = (Ok answers, st1) /\
    stdout run.2 = stdout (fresh (char := ascii)) ++ transcript EVAL_SET answers
                   ++ [tally_line (correct_count answers EVAL_SET)
                         (Z.of_nat (length (EVAL_SET (char := ascii))))] /\
    length (transcript EVAL_SET answers) = (3 * length (EVAL_SET (char := ascii)))%nat.
Proof.
  cbv zeta. split; [vm_compute; reflexivity|].
  apply (verbose_prints_transcript_and_tally (host := demo_host) AGENT_CONFIG EVAL_SET
           fresh paris_metrics
           (run_benchmark (host := demo_host) AGENT_CONFIG EVAL_SET true fresh).2).
  vm_compute. reflexivity.
Defined.

Lemma benchmark_stops_at_first_failure_witness :
  let st : Sys ascii nat := MkSys 0%nat [] [] in
  let run := run_benchmark (host := flaky_host 3) AGENT_CONFIG EVAL_SET false st in
  run.1 = Raise (OtherError "APIConnectionError" (lit "Connection error.")) /\
  world run.2 = 4%nat.
Proof.
  cbv zeta.
  pose proof (benchmark_stops_at_first_failure (host := flaky_host 3) AGENT_CONFIG false
                (take 1 EVAL_SET)
                (MkExample (lit "Who wrote the novel Pride and Prejudice?")
                   (lit "jane austen"))
                (drop 2 EVAL_SET) (MkSys 0%nat [] [])
                [lit "Paris"]
                (answer_all (host := flaky_host 3) AGENT_CONFIG false (take 1 EVAL_SET)
                   (MkSys 0%nat [] [])).2
                (OtherError "APIConnectionError" (lit "Connection error."))
                (run_benchmark (host := flaky_host 3) AGENT_CONFIG EVAL_SET false
                   (MkSys 0%nat [] [])).2) as Hstop.
  change (take 1 EVAL_SET ++ _ :: drop 2 EVAL_SET) with (EVAL_SET (char := ascii)) in Hstop.
  rewrite Hstop; [split; [reflexivity|vm_compute; reflexivity]|..];
    vm_compute; reflexivity.
Defined.

Lemma demo_provider_answers : provider_answers (host := demo_host).
Proof. intros call w. exists (Some (lit " Paris ")), w. reflexivity. Qed.

Lemma reference_benchmark_requests_witness :
  length (llm_calls (run_benchmark (host := demo_host) AGENT_CONFIG EVAL_SET false fresh).2)
  = (length (llm_calls (fresh (char := ascii))) + 14)%nat.
Proof.
  apply (reference_benchmark_requests (host := demo_host) false fresh).
  exact demo_provider_answers.
Defined.

Lemma success_rate_follows_matches_witness :
  let run := run_benchmark (host := echo_host) (solver_says "Paris") EVAL_SET false fresh in
  let run' := run_benchmark (host := echo_host) (solver_says "h2o, Rome") EVAL_SET false fresh in
  let m' : gmap string (pyval ascii) :=
    {[ "success_rate" := PyFloat (truediv_Z 2 7); "num_examples" := PyFloat 7 ]} in
  exists answers answers' st1 st1' x x',
    answer_all (host := echo_host) (solver_says "Paris") false EVAL_SET fresh
      = (Ok answers, st1) /\
    answer_all (host := echo_host) (solver_says "h2o, Rome") false EVAL_SET fresh
      = (Ok answers', st1') /\
    paris_metrics !! "success_rate" = Some (PyFloat x) /\
    m' !! "success_rate" = Some (PyFloat x') /\
    (correct_count answers EVAL_SET < correct_count answers' EVAL_SET ->
     (x <? x')%float = true) /\
    (correct_count answers EVAL_SET = 0 <-> x = 0%float) /\
    (correct_count answers EVAL_SET = 7 <-> x = 1%float).
Proof.
  cbv zeta.
  apply (success_rate_follows_matches (host := echo_host)
           (solver_says "Paris") (solver_says "h2o, Rome") false false fresh fresh
           paris_metrics
           {[ "success_rate" := PyFloat (truediv_Z 2 7); "num_examples" := PyFloat 7 ]}
           (run_benchmark (host := echo_host) (solver_says "Paris") EVAL_SET false fresh).2
           (run_benchmark (host := echo_host) (solver_says "h2o, Rome") EVAL_SET false
              fresh).2);
    vm_compute; reflexivity.
Defined.

Lemma evaluate_propagates_benchmark_error_witness :
  (evaluate (host := odd_host) (lit "best_program.py") fresh).1
  = Raise (OtherError "APIConnectionError" (lit "Connection error.")).
Proof.
  rewrite (evaluate_propagates_benchmark_error (host := odd_host)
             (lit "best_program.py") fresh
             (candidate_module (host := failing_host) AGENT_CONFIG EVAL_SET) fresh
             (PyDict <$> run_benchmark (host := failing_host) AGENT_CONFIG EVAL_SET false)
             (OtherError "APIConnectionError" (lit "Connection error."))
             ((PyDict <$> run_benchmark (host := failing_host) AGENT_CONFIG EVAL_SET false)
                fresh).2);
    [reflexivity|..]; vm_compute; reflexivity.
Defined.

Lemma evaluate_rejects_malformed_benchmark_witness :
  evaluate (host := odd_host) (lit "not_callable.py") fresh = (Raise TypeError, fresh) /\
  evaluate (host := odd_host) (lit "returns_none.py") fresh
  = (Raise (AttributeError (lit "'NoneType' object has no attribute 'get'")), fresh).
Proof.
  assert (_load_program (host := odd_host) (lit "not_callable.py") fresh
          = (Ok (MkModule {[ "run_benchmark" := AttrValue (PyInt 3) ]}), fresh))
    as Hfirst by (vm_compute; reflexivity).
  assert (_load_program (host := odd_host) (lit "returns_none.py") fresh
          = (Ok (module_returning PyNone), fresh))
    as Hsecond by (vm_compute; reflexivity).
  split.
  - apply (proj1 (evaluate_rejects_malformed_benchmark _ _ _ _ Hfirst) (PyInt 3)).
    reflexivity.
  - apply (proj2 (evaluate_rejects_malformed_benchmark _ _ _ _ Hsecond)
             (mret PyNone) PyNone fresh); [reflexivity|reflexivity|discriminate].
Defined.

Lemma evaluate_report_shape_witness :
  exists x,
    ({[ "score" := 0.5%float; "combined_score" := 0.5%float;
        "success_rate" := 0.5%float ]} : gmap string float)
    = {[ "score" := x; "combined_score" := x; "success_rate" := x ]} /\
    report_all {[ "score" := 0.5%float; "combined_score" := 0.5%float;
                  "success_rate" := 0.5%float ]} x /\
    dom ({[ "score" := 0.5%float; "combined_score" := 0.5%float;
            "success_rate" := 0.5%float ]} : gmap string float)
      = ({[ "score"; "combined_score"; "success_rate" ]} : gset string) /\
    ({[ "score" := 0.5%float; "combined_score" := 0.5%float;
        "success_rate" := 0.5%float ]} : gmap string float) !! "num_examples" = None.
Proof.
  apply (evaluate_report_shape (host := demo_host) (lit "half.py") fresh _ fresh).
  vm_compute. reflexivity.
Defined.

Lemma evaluate_candidate_is_quiet_benchmark_witness :
  exists k x,
    0 <= k <= 7 /\ x = truediv_Z k 7 /\
    paris_metrics !! "success_rate" = Some (PyFloat x) /\
    evaluate (host := demo_host) (lit "best_program.py") fresh =
      (Ok {[ "score" := x; "combined_score" := x; "success_rate" := x ]},
       (run_benchmark (host := demo_host) AGENT_CONFIG EVAL_SET false fresh).2) /\
    (0 <=? x)%float = true /\ (x <=? 1)%float = true.
Proof.
  assert (_load_program (host := demo_host) (lit "best_program.py") fresh
          = (Ok (candidate_module (host := demo_host) AGENT_CONFIG EVAL_SET), fresh))
    as Hload by (vm_compute; reflexivity).
  apply (proj1 (evaluate_candidate_is_quiet_benchmark _ _ _ _ Hload)
           paris_metrics
           (run_benchmark (host := demo_host) AGENT_CONFIG EVAL_SET false fresh).2).
  vm_compute. reflexivity.
Defined.

Lemma missing_api_key_fails_the_load_witness :
  evaluate (host := file_host ∅) (lit "best_program.py") fresh
    = (Raise (OtherError "RuntimeError" missing_key_message), fresh) /\
  _load_program (host := file_host key_environ) (lit "best_program.py") fresh
    = (Ok (candidate_module (host := file_host key_environ) AGENT_CONFIG EVAL_SET), fresh).
Proof.
  assert (forall environ,
            spec_from_file_location (Host := file_host environ)
              (lit "candidate_program") (lit "best_program.py") fresh
            = (Ok (Some tt), fresh)) as Hspec by (intros; vm_compute; reflexivity).
  assert (forall environ,
            exec_module (Host := file_host environ) tt (MkModule ∅) fresh
            = exec_best_program (host := file_host environ) environ fresh) as Hexec.
  { intros environ. unfold exec_best_program, _api_key. cbn.
    unfold exec_best_program, _api_key, mbind, M_bind, bind, try.
    destruct (environ !! "OPENAI_API_KEY") as [key|]; [|reflexivity].
    destruct (bool_decide (key = [])); reflexivity. }
  split.
  - apply (proj1 (missing_api_key_fails_the_load (host := file_host ∅)
                    (lit "best_program.py") fresh tt fresh (MkModule ∅) fresh ∅
                    (Hspec ∅) eq_refl eq_refl (Hexec ∅))).
    left. reflexivity.
  - apply (proj2 (missing_api_key_fails_the_load (host := file_host key_environ)
                    (lit "best_program.py") fresh tt fresh (MkModule ∅) fresh key_environ
                    (Hspec key_environ) eq_refl eq_refl (Hexec key_environ))
             (lit "sk-test")).
    + reflexivity.
    + discriminate.
Defined.

Lemma main_needs_key_and_runs_evolution_witness :
  main (driver := scripted_driver (Ok ∅)) ∅ (MkSys [] [] [])
    = (Raise (OtherError "RuntimeError"
                (lit "OPENAI_API_KEY not found in environment variables.")),
       MkSys [] [] []) /\
  main (driver := scripted_driver (Raise (OtherError "KeyboardInterrupt" [])))
    key_environ (MkSys [] [] [])
    = (Raise (OtherError "KeyboardInterrupt" []), MkSys [] [] []).
Proof.
  split.
  - apply (main_needs_key_and_runs_evolution (driver := scripted_driver (Ok ∅))).
    left. reflexivity.
  - apply (proj2 (main_needs_key_and_runs_evolution
                    (driver := scripted_driver (Raise (OtherError "KeyboardInterrupt" [])))
                    key_environ (MkSys [] [] [])) (lit "sk-test"));
      [reflexivity|discriminate|reflexivity].
Defined.

Lemma main_saves_only_nonblank_code_witness :
  let code : list ascii := lit "AGENT_CONFIG = {}" in
  let saved : gmap string (pyval ascii) :=
    {[ "best_score" := PyInt 1; "best_code" := PyStr code ]} in
  let blank_code : gmap string (pyval ascii) :=
    {[ "best_score" := PyInt 0; "best_code" := PyStr (lit "  ") ]} in
  world (main (driver := scripted_driver (Ok saved)) key_environ (MkSys [] [] [])).2
    = [(lit "/repo/best_program.py", code)] /\
  main (driver := scripted_driver (Ok blank_code)) key_environ (MkSys [] [] [])
    = (Ok tt, MkSys [] [] [ lit (String "010" "Evolution finished.");
                           lit "Best score found: 0"; no_best_code_note ]).
Proof.
  cbv zeta. split.
  - rewrite (proj1 (main_saves_only_nonblank_code
                      (driver := scripted_driver
                                   (Ok {[ "best_score" := PyInt 1;
                                          "best_code" := PyStr (lit "AGENT_CONFIG = {}") ]}))
                      key_environ (MkSys [] [] []) (lit "sk-test") _ (MkSys [] [] [])
                      eq_refl ltac:(discriminate) eq_refl)
               (lit "AGENT_CONFIG = {}") eq_refl ltac:(discriminate)).
    reflexivity.
  - rewrite (proj2 (main_saves_only_nonblank_code
                      (driver := scripted_driver
                                   (Ok {[ "best_score" := PyInt 0;
                                          "best_code" := PyStr (lit "  ") ]}))
                      key_environ (MkSys [] [] []) (lit "sk-test") _ (MkSys [] [] [])
                      eq_refl ltac:(discriminate) eq_refl)).
    + reflexivity.
    + intros code Hcode. vm_compute in Hcode. injection Hcode as <-. reflexivity.
Defined.
